(** * Make.com MCP node: the SSE toolkit and the node built on it

    A shallow embedding of
      - [packages/components/nodes/tools/MCP/sseCore.ts]
        ([SSEMCPToolkit], [MCPToolSSE], [createSchemaModel]) and
      - the Make.com node ([MakeTool]: [listMakeScenarios], [init]),
    followed by the properties stated about them.

    Asynchronous functions are modelled by their sequential meaning: every
    [await] in the sources is immediately awaited, so a promise is the
    outcome it settles to.  A function that can throw returns a [Result].
    Logging ([console.error], [console.warn]) is not part of the model, and
    the dynamic [import('../sseCore')] is taken to succeed.

    zod, the MCP SDK and LangChain are libraries: the model keeps of them
    what the sources call, with the behaviour of zod 3. *)

From Stdlib Require Import String Ascii ZArith QArith DecimalString.
From Stdlib Require Import Sorted Permutation.
From Stdlib Require OrdersEx.
From stdpp Require Import base option list gmap strings.

(** ** JavaScript values and exceptions *)

Module Js.

(** What a [catch (error)] clause can receive.  The sources only ever
    render it with [error instanceof Error ? error.message : String(error)]. *)
Inductive Thrown : Type :=
  | ErrorObject (message : string)
  | ThrownValue (rendered : string).

Definition error_text (error : Thrown) : string :=
  match error with
  | ErrorObject message => message
  | ThrownValue rendered => rendered
  end.

Definition TypeError (message : string) : Thrown := ErrorObject message.

(** The outcome of a call: a value, or an exception on its way up. *)
Inductive Result (A : Type) : Type :=
  | Ok (a : A)
  | Throw (error : Thrown).
Arguments Ok {A} a.
Arguments Throw {A} error.

#[global] Instance Result_ret : MRet Result := λ A a, Ok a.
#[global] Instance Result_bind : MBind Result := λ A B f r,
  match r with
  | Ok a => f a
  | Throw error => Throw error
  end.

(** [try { body } catch (error) { handler }] *)
Definition try_catch {A} (body : Result A) (handler : Thrown → Result A) : Result A :=
  match body with
  | Ok a => Ok a
  | Throw error => handler error
  end.


(** Values of type [any].  Objects are ordinary objects: records of own
    data properties in insertion order, with ordinary keys (JSON as a
    server delivers it), that inherit from [Object.prototype].
    Numbers are the finite ones.  [VRevoked] is a revoked [Proxy]: an
    object, truthy, on which every inspection throws a [TypeError].
    [VFunction] is a function, named: data holds none, but every ordinary
    object inherits some from [Object.prototype]. *)
#[warnings="-register-all"]
Inductive JsVal : Type :=
  | VUndefined
  | VNull
  | VBool (b : bool)
  | VNum (q : Q)
  | VStr (s : string)
  | VArr (items : list JsVal)
  | VObj (props : list (string * JsVal))
  | VRevoked
  | VFunction (id : string).

(** [typeof v] *)
Definition typeof (v : JsVal) : string :=
  match v with
  | VUndefined => "undefined"
  | VNull => "object"
  | VBool _ => "boolean"
  | VNum _ => "number"
  | VStr _ => "string"
  | VArr _ | VObj _ | VRevoked => "object"
  | VFunction _ => "function"
  end.

(** [ToBoolean]: what [!v], [v || w] and [if (v)] look at. *)
Definition truthy (v : JsVal) : bool :=
  match v with
  | VUndefined | VNull => false
  | VBool b => b
  | VNum q => negb (Qeq_bool q 0)
  | VStr s => negb (String.eqb s EmptyString)
  | VArr _ | VObj _ | VRevoked | VFunction _ => true
  end.

(** [v === 'literal'] *)
Definition is_string (v : JsVal) (literal : string) : bool :=
  match v with
  | VStr s => String.eqb s literal
  | _ => false
  end.

Fixpoint assoc {A} (key : string) (props : list (string * A)) : option A :=
  match props with
  | [] => None
  | (k, a) :: rest => if String.eqb k key then Some a else assoc key rest
  end.

(** [obj[key] = a] on a record: replaces in place, or appends. *)
Fixpoint assign {A} (key : string) (a : A) (props : list (string * A)) : list (string * A) :=
  match props with
  | [] => [(key, a)]
  | (k, b) :: rest =>
      if String.eqb k key then (k, a) :: rest else (k, b) :: assign key a rest
  end.

(** What an ordinary object inherits from [Object.prototype]: its methods,
    and under [__proto__] the prototype itself, an object without
    enumerable properties of its own.  None of them is enumerable. *)
Definition Object_prototype : list (string * JsVal) :=
  [("constructor", VFunction "Object");
   ("__defineGetter__", VFunction "__defineGetter__");
   ("__defineSetter__", VFunction "__defineSetter__");
   ("hasOwnProperty", VFunction "hasOwnProperty");
   ("__lookupGetter__", VFunction "__lookupGetter__");
   ("__lookupSetter__", VFunction "__lookupSetter__");
   ("isPrototypeOf", VFunction "isPrototypeOf");
   ("propertyIsEnumerable", VFunction "propertyIsEnumerable");
   ("toString", VFunction "toString");
   ("valueOf", VFunction "valueOf");
   ("__proto__", VObj []);
   ("toLocaleString", VFunction "toLocaleString")].

(** The member an object has under a key, its own or, failing that, the
    inherited one: [key in obj] is [is_Some (member props key)] and
    [obj[key]] is [default VUndefined (member props key)]. *)
Definition member (props : list (string * JsVal)) (key : string) : option JsVal :=
  match assoc key props with
  | Some value => Some value
  | None => assoc key Object_prototype
  end.

(** [v.key].  The keys read by the sources ([type], [properties],
    [required], [description], [context]) are not properties of arrays,
    strings, numbers, booleans or functions, nor inherited by objects, so
    reading them gives the object's own member or [undefined]. *)
Definition get (v : JsVal) (key : string) : Result JsVal :=
  match v with
  | VUndefined =>
      Throw (TypeError ("Cannot read properties of undefined (reading '" +:+ key +:+ "')"))
  | VNull =>
      Throw (TypeError ("Cannot read properties of null (reading '" +:+ key +:+ "')"))
  | VObj props => Ok (default VUndefined (assoc key props))
  | VRevoked => Throw (TypeError "Cannot perform 'get' on a proxy that has been revoked")
  | VBool _ | VNum _ | VStr _ | VArr _ | VFunction _ => Ok VUndefined
  end.

(** [v?.key] *)
Definition opt_get (v : JsVal) (key : string) : Result JsVal :=
  match v with
  | VUndefined | VNull => Ok VUndefined
  | _ => get v key
  end.

(** [Array.isArray(v)] *)
Definition Array_isArray (v : JsVal) : Result bool :=
  match v with
  | VArr _ => Ok true
  | VRevoked => Throw (TypeError "Cannot perform 'IsArray' on a proxy that has been revoked")
  | _ => Ok false
  end.

(** [items.includes(key)] for a string [key]: only an equal string matches. *)
Definition includes (items : list JsVal) (key : string) : bool :=
  existsb (λ item, is_string item key) items.

Definition index_key (i : nat) : string := NilZero.string_of_uint (Nat.to_uint i).

(** *** Strings by code units

    A [string] holds text as the bytes of its UTF-8 encoding, while
    JavaScript counts and cuts a string by UTF-16 code units.  A character
    encoded on one, two or three bytes is one code unit; a character
    encoded on four bytes is a pair of surrogates.  Half a pair, which
    only cutting a string produces, is held as the three bytes of its
    generalized UTF-8 encoding.  On bytes that encode no text, a stray
    byte counts as a character of its own and a truncated pair as U+FFFD. *)

(** The bytes of the character that starts with [lead]. *)
Definition utf8_width (lead : ascii) : nat :=
  let n := nat_of_ascii lead in
  if (n <? 192)%nat then 1
  else if (n <? 224)%nat then 2
  else if (n <? 240)%nat then 3
  else 4.

(** The code units of the character that starts with [lead]. *)
Definition utf16_units (lead : ascii) : nat :=
  if (nat_of_ascii lead <? 240)%nat then 1 else 2.

Definition code_point (b1 b2 b3 b4 : ascii) : N :=
  N.lor (N.shiftl (N.land (N_of_ascii b1) 7) 18)
    (N.lor (N.shiftl (N.land (N_of_ascii b2) 63) 12)
       (N.lor (N.shiftl (N.land (N_of_ascii b3) 63) 6)
          (N.land (N_of_ascii b4) 63))).

Definition high_surrogate (codePoint : N) : N :=
  (55296 + N.shiftr (codePoint - 65536) 10)%N.

Definition low_surrogate (codePoint : N) : N :=
  (56320 + N.land (codePoint - 65536) 1023)%N.

(** A surrogate on its own: the bytes ED, 10xxxxxx, 10xxxxxx. *)
Definition lone_surrogate (unit : N) : string :=
  String (ascii_of_nat 237)
    (String (ascii_of_N (N.lor 128 (N.land (N.shiftr unit 6) 63)))
       (String (ascii_of_N (N.lor 128 (N.land unit 63))) EmptyString)).

Definition replacement : string :=
  String (ascii_of_nat 239)
    (String (ascii_of_nat 191) (String (ascii_of_nat 189) EmptyString)).

(** The two halves of the pair whose encoding is [lead] and the next three
    bytes of [rest]. *)
Definition halves (lead : ascii) (rest : string) : string * string :=
  match rest with
  | String b2 (String b3 (String b4 _)) =>
      let codePoint := code_point lead b2 b3 b4 in
      (lone_surrogate (high_surrogate codePoint),
       lone_surrogate (low_surrogate codePoint))
  | _ => (replacement, replacement)
  end.

(** The first [end_] code units of [s]; [pending] bytes at the front of [s]
    belong to a character already taken. *)
Fixpoint substring_from (pending end_ : nat) (s : string) : string :=
  match s with
  | EmptyString => EmptyString
  | String byte rest =>
      match pending with
      | S pending => String byte (substring_from pending end_ rest)
      | O =>
          if (utf16_units byte <=? end_)%nat
          then String byte
                 (substring_from (utf8_width byte - 1) (end_ - utf16_units byte) rest)
          else if (end_ =? 1)%nat then (halves byte rest).1
          else EmptyString
      end
  end.

(** [s.substring(0, end_)] *)
Definition substring_0 (end_ : nat) (s : string) : string :=
  substring_from 0 end_ s.

Fixpoint units_from (pending : nat) (s : string) : nat :=
  match s with
  | EmptyString => 0
  | String byte rest =>
      match pending with
      | S pending => units_from pending rest
      | O => utf16_units byte + units_from (utf8_width byte - 1) rest
      end
  end.

(** [s.length] *)
Definition code_unit_length (s : string) : nat := units_from 0 s.

Fixpoint code_units_from (pending : nat) (s : string) : list string :=
  match s with
  | EmptyString => []
  | String byte rest =>
      match pending with
      | S pending => code_units_from pending rest
      | O =>
          (if (utf16_units byte =? 1)%nat
           then [String byte (substring 0 (utf8_width byte - 1) rest)]
           else [(halves byte rest).1; (halves byte rest).2])
          ++ code_units_from (utf8_width byte - 1) rest
      end
  end.

(** [s[0], s[1], ...]: the code units of [s], each as a string. *)
Definition code_units (s : string) : list string := code_units_from 0 s.

(** [Object.entries(v)] *)
Definition Object_entries (v : JsVal) : Result (list (string * JsVal)) :=
  match v with
  | VUndefined | VNull => Throw (TypeError "Cannot convert undefined or null to object")
  | VObj props => Ok props
  | VArr items => Ok (imap (λ i item, (index_key i, item)) items)
  | VStr s => Ok (imap (λ i unit, (index_key i, VStr unit)) (code_units s))
  | VBool _ | VNum _ | VFunction _ => Ok []
  | VRevoked => Throw (TypeError "Cannot perform 'ownKeys' on a proxy that has been revoked")
  end.

(** [entries.reduce(step, init)] with a callback that can throw. *)
Fixpoint reduce {A B} (step : A → B → Result A) (entries : list B) (acc : A) : Result A :=
  match entries with
  | [] => Ok acc
  | entry :: rest => acc' ← step acc entry; reduce step rest acc'
  end.

(** [items.sort(compareFn)]: the sort is stable, and with a consistent
    comparator its result is the one of this stable insertion sort. *)
Fixpoint sort_insert {A} (compareFn : A → A → Z) (x : A) (sorted : list A) : list A :=
  match sorted with
  | [] => [x]
  | y :: rest =>
      if (compareFn x y <=? 0)%Z then x :: y :: rest
      else y :: sort_insert compareFn x rest
  end.

Definition Array_sort {A} (compareFn : A → A → Z) (items : list A) : list A :=
  foldr (sort_insert compareFn) [] items.

(** [Number.isInteger(q)] *)
Definition Number_isInteger (q : Q) : bool :=
  (Z.rem (Qnum q) (Z.pos (Qden q)) =? 0)%Z.

End Js.
Import Js.

(** ** The part of zod the sources use *)

Module Zod.

(** Validators.  [describe] returns the same validator with a description
    recorded in its definition; it does not change what is accepted. *)
Inductive ZodTypeAny : Type :=
  | ZodString
  | ZodNumber (int : bool)
  | ZodBoolean
  | ZodAny
  | ZodOptional (innerType : ZodTypeAny)
  | ZodDescribed (inner : ZodTypeAny) (description : JsVal).

Definition string_ : ZodTypeAny := ZodString.
Definition number : ZodTypeAny := ZodNumber false.
Definition boolean : ZodTypeAny := ZodBoolean.
Definition any : ZodTypeAny := ZodAny.
Definition int (t : ZodTypeAny) : ZodTypeAny :=
  match t with ZodNumber _ => ZodNumber true | _ => t end.
Definition optional (t : ZodTypeAny) : ZodTypeAny := ZodOptional t.
Definition describe (t : ZodTypeAny) (description : JsVal) : ZodTypeAny :=
  ZodDescribed t description.

Inductive UnknownKeys : Type := strip | passthrough_.

Record ZodObject : Type := {
  shape : list (string * ZodTypeAny);
  unknownKeys : UnknownKeys
}.

(** [z.object(shape)] and [schema.passthrough()] *)
Definition object (shape : list (string * ZodTypeAny)) : ZodObject :=
  {| shape := shape; unknownKeys := strip |}.
Definition passthrough (schema : ZodObject) : ZodObject :=
  {| shape := shape schema; unknownKeys := passthrough_ |}.

Inductive ZodParsedType : Type :=
  | t_undefined | t_null | t_boolean | t_number | t_string | t_array | t_object
  | t_function.

(** zod's [getParsedType]; for objects it asks [Array.isArray]. *)
Definition getParsedType (data : JsVal) : Result ZodParsedType :=
  match data with
  | VUndefined => Ok t_undefined
  | VNull => Ok t_null
  | VBool _ => Ok t_boolean
  | VNum _ => Ok t_number
  | VStr _ => Ok t_string
  | VArr _ => Ok t_array
  | VObj _ => Ok t_object
  | VRevoked => Throw (TypeError "Cannot perform 'IsArray' on a proxy that has been revoked")
  | VFunction _ => Ok t_function
  end.

(** Parsing one value: [Ok (Some out)] when valid, [Ok None] when the
    validator raises an issue; an exception of the data itself escapes. *)
Fixpoint parse_value (t : ZodTypeAny) (data : JsVal) : Result (option JsVal) :=
  match t with
  | ZodString =>
      ty ← getParsedType data;
      mret (match ty with t_string => Some data | _ => None end)
  | ZodNumber int =>
      ty ← getParsedType data;
      mret (match ty, data with
            | t_number, VNum q =>
                if int && negb (Number_isInteger q) then None else Some data
            | _, _ => None
            end)
  | ZodBoolean =>
      ty ← getParsedType data;
      mret (match ty with t_boolean => Some data | _ => None end)
  | ZodAny => mret (Some data)
  | ZodOptional innerType =>
      ty ← getParsedType data;
      match ty with
      | t_undefined => mret (Some VUndefined)
      | _ => parse_value innerType data
      end
  | ZodDescribed inner _ => parse_value inner data
  end.

(** One key of the shape: the parse of [data[key]], and [key in data]
    ([alwaysSet]); both look through the prototype chain. *)
Definition parse_key (props : list (string * JsVal)) (entry : string * ZodTypeAny)
  : Result (string * option JsVal * bool) :=
  let '(key, validator) := entry in
  out ← parse_value validator (default VUndefined (member props key));
  mret (key, out, bool_decide (is_Some (member props key))).

(** zod's [mergeObjectSync]: invalid as soon as one key is; a key other
    than [__proto__] is set when its value is not [undefined] or the key
    was present. *)
Fixpoint merge_pairs (pairs : list (string * option JsVal * bool))
  : option (list (string * JsVal)) :=
  match pairs with
  | [] => Some []
  | (key, out, alwaysSet) :: rest =>
      value ← out;
      final ← merge_pairs rest;
      Some (if String.eqb key "__proto__" then final
            else match value, alwaysSet with
                 | VUndefined, false => final
                 | _, _ => (key, value) :: final
                 end)
  end.

Definition in_shape (schema : ZodObject) (key : string) : bool :=
  bool_decide (is_Some (assoc key (shape schema))).

(** [schema.safeParse(data)] for an object schema. *)
Definition safeParse (schema : ZodObject) (data : JsVal) : Result (option JsVal) :=
  ty ← getParsedType data;
  match ty, data with
  | t_object, VObj props =>
      pairs ← mapM (parse_key props) (shape schema);
      let extra :=
        match unknownKeys schema with
        | strip => []
        | passthrough_ => filter (λ p, in_shape schema p.1 = false) props
        end in
      mret (final ← merge_pairs pairs; Some (VObj (final ++ extra)))
  | _, _ => mret None
  end.

Definition accepts (schema : ZodObject) (data : JsVal) : bool :=
  match safeParse schema data with
  | Ok (Some _) => true
  | _ => false
  end.

End Zod.
Import Zod.

(** ** The part of the MCP SDK the sources use *)

Module Mcp.

(** One entry of a [tools/list] result, after [ListToolsResultSchema]. *)
Record McpTool : Type := {
  mcp_name : string;
  mcp_description : option string;
  inputSchema : JsVal
}.

Record ListToolsResult : Type := { rawtools : list McpTool }.

(** One part of a [tools/call] result, after [CallToolResultSchema]. *)
Inductive ContentPart : Type :=
  | TextContent (text : string)
  | ImageContent (data mimeType : string)
  | EmbeddedResource (resource : JsVal).

Definition part_type (part : ContentPart) : string :=
  match part with
  | TextContent _ => "text"
  | ImageContent _ _ => "image"
  | EmbeddedResource _ => "resource"
  end.

(** [part.text]; absent on the other parts, which [join] renders as [''] . *)
Definition part_text (part : ContentPart) : string :=
  match part with
  | TextContent text => text
  | _ => EmptyString
  end.

Record CallToolResult : Type := {
  content : list ContentPart;
  isError : bool
}.

(** How the server behind one URL answers during one session. *)
Record Endpoint : Type := {
  on_connect : Result unit;
  on_tools_list : Result ListToolsResult;
  on_tools_call : string → JsVal → Result CallToolResult
}.

(** The network: who answers at a URL. *)
Definition Net : Type := string → Endpoint.

Record SSEClientTransport : Type := { transport_url : string }.

Record Client : Type := {
  clientInfo_name : string;
  clientInfo_version : string;
  session : option Endpoint
}.

(** [new Client({ name, version }, { capabilities: {} })] *)
Definition new_Client (name version : string) : Client :=
  {| clientInfo_name := name; clientInfo_version := version; session := None |}.

(** [client.connect(transport)]: the client is the same object, now bound
    to the session. *)
Definition connect (net : Net) (client : Client) (transport : SSEClientTransport)
  : Result Client :=
  let endpoint := net (transport_url transport) in
  _ ← on_connect endpoint;
  mret {| clientInfo_name := clientInfo_name client;
          clientInfo_version := clientInfo_version client;
          session := Some endpoint |}.

(** [client.request({ method: 'tools/list' }, ListToolsResultSchema)] *)
Definition request_tools_list (client : Client) : Result ListToolsResult :=
  match session client with
  | None => Throw (ErrorObject "Not connected")
  | Some endpoint => on_tools_list endpoint
  end.

(** [client.request({ method: 'tools/call', params: { name, arguments } },
    CallToolResultSchema)] *)
Definition request_tools_call (client : Client) (name : string) (arguments : JsVal)
  : Result CallToolResult :=
  match session client with
  | None => Throw (ErrorObject "Not connected")
  | Some endpoint => on_tools_call endpoint name arguments
  end.

End Mcp.
Import Mcp.

(** ** sseCore.ts *)

(** A LangChain [DynamicStructuredTool] as built by [tool(func, fields)]:
    the fields, and the handler [func].  Invoking the tool is LangChain's
    work: it parses the input with [schema], and calls [func] with what
    the parse gives when the schema accepts the input. *)
Record DynamicStructuredTool : Type := {
  name : string;
  description : string;
  schema : ZodObject;
  func : JsVal → Result string
}.

Definition newline : string := String (ascii_of_nat 10) EmptyString.

(** [a || b] on strings *)
Definition or_else (a b : string) : string :=
  if String.eqb a EmptyString then b else a.

(** The closure handed to [tool(...)] in [MCPToolSSE]. *)
Definition MCPToolSSE_func (client : Client) (name : string) (input : JsVal)
  : Result string :=
  try_catch
    (response ← request_tools_call client name input;
     let responseText :=
       String.concat newline
         (map part_text
            (filter (λ part, part_type part = "text") (content response))) in
     mret (or_else responseText "[No text content returned]"))
    (λ error,
       mret ("Error executing tool " +:+ name +:+ ": " +:+ error_text error)).

Definition MCPToolSSE (client : Client) (name description : string)
    (argsSchema : ZodObject) : DynamicStructuredTool :=
  {| name := name;
     description := description;
     schema := argsSchema;
     func := MCPToolSSE_func client name |}.

(** The [switch (propSchema?.type)] of [createSchemaModel]. *)
Definition zodType_of (type : JsVal) : ZodTypeAny :=
  if is_string type "string" then Zod.string_
  else if is_string type "number" then Zod.number
  else if is_string type "boolean" then Zod.boolean
  else if is_string type "integer" then Zod.int Zod.number
  else Zod.any.

(** The callback of the [reduce] in [createSchemaModel]. *)
Definition convert_property (inputSchema : JsVal)
    (acc : list (string * ZodTypeAny)) (entry : string * JsVal)
  : Result (list (string * ZodTypeAny)) :=
  let '(key, propSchema) := entry in
  type ← opt_get propSchema "type";
  let zodType := zodType_of type in
  required ← get inputSchema "required";
  isArray ← Array_isArray required;
  let isRequired :=
    isArray && match required with VArr items => includes items key | _ => false end in
  let validator := if isRequired then zodType else Zod.optional zodType in
  let acc := assign key validator acc in
  description ← opt_get propSchema "description";
  if truthy description
  then mret (assign key (Zod.describe validator description) acc)
  else mret acc.

(** The body of the [try] block of [createSchemaModel]. *)
Definition convert_properties (inputSchema : JsVal) : Result ZodObject :=
  properties ← get inputSchema "properties";
  entries ← Object_entries properties;
  schemaProperties ← reduce (convert_property inputSchema) entries [];
  mret (Zod.object schemaProperties).

(** The guard of [createSchemaModel]:
    [!inputSchema || typeof inputSchema !== 'object' ||
     inputSchema.type !== 'object' || !inputSchema.properties] *)
Definition invalid_or_empty (inputSchema : JsVal) : Result bool :=
  if negb (truthy inputSchema) then mret true
  else if negb (String.eqb (typeof inputSchema) "object") then mret true
  else
    type ← get inputSchema "type";
    if negb (is_string type "object") then mret true
    else
      properties ← get inputSchema "properties";
      mret (negb (truthy properties)).

Definition createSchemaModel (inputSchema : JsVal) : Result ZodObject :=
  invalid ← invalid_or_empty inputSchema;
  if invalid : bool then mret (Zod.object [])
  else
    try_catch
      (convert_properties inputSchema)
      (λ error, mret (Zod.passthrough (Zod.object []))).

(** The toolkit object: its mutable fields. *)
Record SSEParams : Type := {
  url : string;
  headers : option (gmap string string)
}.

Record SSEMCPToolkit : Type := {
  tools : list DynamicStructuredTool;
  _rawTools : option ListToolsResult;
  client : option Client;
  transport : option SSEClientTransport;
  sseParams : SSEParams
}.

Definition not_initialized : Thrown :=
  ErrorObject "Toolkit not initialized. Call initialize() first.".

(** The callback mapped over [_rawTools.tools] in [get_tools]. *)
Definition make_tool (client : Client) (mcpTool : McpTool) : Result DynamicStructuredTool :=
  argsSchema ← createSchemaModel (inputSchema mcpTool);
  mret (MCPToolSSE client
          (mcp_name mcpTool)
          (or_else (default EmptyString (mcp_description mcpTool))
                   ("Invoke " +:+ mcp_name mcpTool +:+ " via MCP"))
          argsSchema).

(** [get_tools()]; [Promise.all] settles to the list of tools, or to the
    first rejection. *)
Definition get_tools (this : SSEMCPToolkit) : Result (list DynamicStructuredTool) :=
  match _rawTools this, client this with
  | Some rawTools, Some client => mapM (make_tool client) (rawtools rawTools)
  | _, _ => Throw not_initialized
  end.

Definition transport_missing : Thrown :=
  ErrorObject "SSE Transport is not initialized.".

Definition flowise_client : Client := new_Client "flowise-sse-client" "1.0.0".

(** The three statements of the [try] block of [initialize], started from
    the toolkit whose [client] is the fresh one. *)
Definition connect_and_list (net : Net) (this : SSEMCPToolkit)
    (tr : SSEClientTransport) : Result SSEMCPToolkit :=
  connected ← connect net flowise_client tr;
  rawTools ← request_tools_list connected;
  let this := {| tools := tools this; _rawTools := Some rawTools;
                 client := Some connected; transport := transport this;
                 sseParams := sseParams this |} in
  tools ← get_tools this;
  mret {| tools := tools; _rawTools := _rawTools this; client := client this;
          transport := transport this; sseParams := sseParams this |}.

(** The state the [catch] block of [initialize] leaves. *)
Definition cleared (this : SSEMCPToolkit) : SSEMCPToolkit :=
  {| tools := []; _rawTools := None; client := None; transport := None;
     sseParams := sseParams this |}.

(** [initialize()]: what it settles to, and the toolkit afterwards. *)
Definition initialize (net : Net) (this : SSEMCPToolkit)
  : Result unit * SSEMCPToolkit :=
  match _rawTools this with
  | Some _ => (Ok (), this)
  | None =>
      let this := {| tools := tools this; _rawTools := _rawTools this;
                     client := Some flowise_client; transport := transport this;
                     sseParams := sseParams this |} in
      match transport this with
      | None => (Throw transport_missing, this)
      | Some tr =>
          match connect_and_list net this tr with
          | Ok this => (Ok (), this)
          | Throw error =>
              (Throw (ErrorObject
                        ("Failed to connect or list tools from MCP server at "
                         +:+ url (sseParams this) +:+ ": " +:+ error_text error)),
               cleared this)
          end
      end
  end.

(** ** The Make.com node *)

Record INodeOptionsValue : Type := {
  opt_label : string;
  opt_name : string;
  opt_description : string
}.

Record INodeData : Type := {
  credential : option string;
  inputs : option (gmap string JsVal)
}.

Section Host.

(** What the runtime and the host platform provide: whether [new URL(s)]
    accepts [s], [a.localeCompare(b)], and the host's
    [getCredentialData(credential, context)]. *)
Variable valid_url : string → bool.
Variable localeCompare : string → string → Z.
Variable getCredentialData : string → JsVal → Result (option (gmap string string)).

(** [new SSEMCPToolkit(params)] *)
Definition new_SSEMCPToolkit (params : option SSEParams) : Result SSEMCPToolkit :=
  match params with
  | None => Throw (ErrorObject "SSEConnectionParameters with a valid URL are required.")
  | Some params =>
      if String.eqb (url params) EmptyString
      then Throw (ErrorObject "SSEConnectionParameters with a valid URL are required.")
      else if valid_url (url params)
      then mret {| tools := []; _rawTools := None; client := None;
                   transport := Some {| transport_url := url params |};
                   sseParams := params |}
      else Throw (TypeError "Invalid URL")
  end.

(** [credentialData?.field], and [!credentialData?.field] *)
Definition credential_field (credentialData : option (gmap string string))
    (field : string) : option string :=
  credentialData ≫= (λ data, data !! field).

Definition missing (field : option string) : bool :=
  match field with
  | None => true
  | Some s => String.eqb s EmptyString
  end.

Definition sse_url (makeZone mcpToken : string) : string :=
  "https://" +:+ makeZone +:+ "/mcp/api/v1/u/" +:+ mcpToken +:+ "/sse".

Definition NO_CRED : INodeOptionsValue :=
  {| opt_label := "Configure Make.com Credentials First";
     opt_name := "NO_CRED";
     opt_description := "Credential details missing." |}.

Definition NO_SCENARIOS : INodeOptionsValue :=
  {| opt_label := "No Scenarios Found";
     opt_name := "NO_SCENARIOS";
     opt_description := "Check Make.com MCP server or token." |}.

Definition LOAD_ERROR (errorMessage : string) : INodeOptionsValue :=
  {| opt_label := "Error Loading Scenarios";
     opt_name := "LOAD_ERROR";
     opt_description := substring_0 100 errorMessage |}.

(** The callback of [toolkit.tools.map] in [listMakeScenarios]. *)
Definition scenario_of (tool : DynamicStructuredTool) : INodeOptionsValue :=
  {| opt_label := name tool;
     opt_name := name tool;
     opt_description := or_else (description tool) (name tool) |}.

Definition by_label (a b : INodeOptionsValue) : Z :=
  localeCompare (opt_label a) (opt_label b).

(** [loadMethods.listMakeScenarios(nodeData, options)] *)
Definition listMakeScenarios (net : Net) (nodeData : INodeData) (options : JsVal)
  : Result (list INodeOptionsValue) :=
  context ← opt_get options "context";
  credentialData ← getCredentialData (default EmptyString (credential nodeData)) context;
  let makeZone := credential_field credentialData "makeZone" in
  let mcpToken := credential_field credentialData "mcpToken" in
  if missing makeZone || missing mcpToken then mret [NO_CRED]
  else
    let sseUrl := sse_url (default EmptyString makeZone) (default EmptyString mcpToken) in
    try_catch
      (toolkit ← new_SSEMCPToolkit (Some {| url := sseUrl; headers := None |});
       let '(outcome, toolkit) := initialize net toolkit in
       _ ← outcome;
       if (length (tools toolkit) =? 0)%nat then mret [NO_SCENARIOS]
       else mret (Array_sort by_label (map scenario_of (tools toolkit))))
      (λ error, mret [LOAD_ERROR (error_text error)]).

(** [nodeData.inputs?.mcpActions as string[] || []] *)
Definition selected_actions (nodeData : INodeData) : JsVal :=
  let mcpActions := default VUndefined (inputs nodeData ≫= (λ inputs, inputs !! "mcpActions")) in
  if truthy mcpActions then mcpActions else VArr [].

(** [init(nodeData, _, options)] *)
Definition init (net : Net) (nodeData : INodeData) (_unused : string) (options : JsVal)
  : Result (list DynamicStructuredTool) :=
  context ← opt_get options "context";
  credentialData ← getCredentialData (default EmptyString (credential nodeData)) context;
  let makeZone := credential_field credentialData "makeZone" in
  let mcpToken := credential_field credentialData "mcpToken" in
  if missing makeZone || missing mcpToken
  then Throw (ErrorObject "Make.com credentials are not configured for this node.")
  else
    let sseUrl := sse_url (default EmptyString makeZone) (default EmptyString mcpToken) in
    let selectedActions := selected_actions nodeData in
    isArray ← Array_isArray selectedActions;
    let items := match selectedActions with VArr items => items | _ => [] end in
    if negb isArray || (length items =? 0)%nat then mret []
    else
      try_catch
        (toolkit ← new_SSEMCPToolkit (Some {| url := sseUrl; headers := None |});
         let '(outcome, toolkit) := initialize net toolkit in
         _ ← outcome;
         mret (filter (λ tool, includes items (name tool) = true) (tools toolkit)))
        (λ error,
           Throw (ErrorObject ("Failed to initialize MakeTool: " +:+ error_text error))).

End Host.

(** ** Notions the properties are stated with *)

(** What an object validator asks of an object: every key of the shape
    parses, at the member the object has for it or at [undefined]. *)
Definition field_ok (props : list (string * JsVal)) (entry : string * ZodTypeAny) : Prop :=
  ∃ out, parse_value entry.2 (default VUndefined (member props entry.1)) = Ok (Some out).

(** A value each validator accepts. *)
Fixpoint sample (t : ZodTypeAny) : JsVal :=
  match t with
  | ZodString => VStr EmptyString
  | ZodNumber _ => VNum 0
  | ZodBoolean => VBool false
  | ZodAny => VUndefined
  | ZodOptional _ => VUndefined
  | ZodDescribed inner _ => sample inner
  end.

(** An object that gives every key of a shape but [omit] a value that the
    key's validator accepts. *)
Definition sample_object (shape : list (string * ZodTypeAny)) (omit : string)
  : list (string * JsVal) :=
  map (λ entry, (entry.1, sample entry.2)) (filter (λ entry, entry.1 ≠ omit) shape).

(** A key is mandatory for a validator when every object that omits the
    key is refused. *)
Definition mandatory (schema : ZodObject) (key : string) : Prop :=
  ∀ props, assoc key props = None → accepts schema (VObj props) = false.

(** The declared types that [createSchemaModel] maps to a validator of their
    own. *)
Definition primitive_type (type : JsVal) : bool :=
  is_string type "string" || is_string type "number"
  || is_string type "boolean" || is_string type "integer".

(** [key] appears in the schema's [required] array. *)
Definition listed_required (inputSchema : JsVal) (key : string) : bool :=
  match get inputSchema "required" with
  | Ok (VArr items) => includes items key
  | _ => false
  end.

(** The validator derived for one property, from what the conversion reads. *)
Definition derived_validator (type required description : JsVal) (key : string)
  : ZodTypeAny :=
  let zodType := zodType_of type in
  let isRequired :=
    match required with VArr items => includes items key | _ => false end in
  let validator := if isRequired then zodType else Zod.optional zodType in
  if truthy description then Zod.describe validator description else validator.


(** The [text] fields of the [text]-typed parts of a response, in order. *)
Fixpoint text_fields (content : list ContentPart) : list string :=
  match content with
  | [] => []
  | TextContent text :: rest => text :: text_fields rest
  | _ :: rest => text_fields rest
  end.

(** The option shown for one remote tool descriptor. *)
Definition scenario_of_descriptor (mcpTool : McpTool) : INodeOptionsValue :=
  {| opt_label := mcp_name mcpTool;
     opt_name := mcp_name mcpTool;
     opt_description :=
       or_else (default EmptyString (mcp_description mcpTool))
               ("Invoke " +:+ mcp_name mcpTool +:+ " via MCP") |}.

(** A value that holds no revoked proxy: plain data, as [JSON.parse]
    gives it. *)
Fixpoint plain (v : JsVal) : bool :=
  match v with
  | VArr items => forallb plain items
  | VObj props => forallb (λ prop, let '(_, value) := prop in plain value) props
  | VRevoked => false
  | _ => true
  end.

(** A present value is of the declared type: the four types that have a
    validator of their own ask for a string, a number, a boolean, an
    integral number; any other declared type asks for nothing. *)
Definition conforms (type value : JsVal) : bool :=
  if is_string type "string" then match value with VStr _ => true | _ => false end
  else if is_string type "number" then match value with VNum _ => true | _ => false end
  else if is_string type "boolean" then match value with VBool _ => true | _ => false end
  else if is_string type "integer"
  then match value with VNum q => Number_isInteger q | _ => false end
  else true.

(** What a property of the declared type, listed in [required] or not,
    admits as the member an object has under its key ([undefined] when the
    object has none). *)
Definition admits (type : JsVal) (required : bool) (value : JsVal) : bool :=
  match value with
  | VUndefined => negb (primitive_type type && required)
  | _ => conforms type value
  end.


(** The node data selects nothing: [mcpActions] is absent, or is anything
    but a non-empty array (a revoked proxy apart). *)
Definition nothing_selected (nodeData : INodeData) : Prop :=
  match inputs nodeData ≫= (λ inputs, inputs !! "mcpActions") with
  | Some (VArr (_ :: _)) | Some VRevoked => False
  | _ => True
  end.

(** Text without a character outside the Basic Multilingual Plane: no
    character of it is a pair of surrogates. *)
Definition no_pair (s : string) : bool :=
  forallb (λ byte, (nat_of_ascii byte <? 240)%nat) (list_ascii_of_string s).

(** Text of ASCII characters only: a byte is a code unit. *)
Definition is_ascii (s : string) : bool :=
  forallb (λ byte, (nat_of_ascii byte <? 128)%nat) (list_ascii_of_string s).

(** The toolkit after further [initialize()] calls, one for each state of
    the network in [nets], in that order. *)
Fixpoint initialized_again (nets : list Net) (this : SSEMCPToolkit) : SSEMCPToolkit :=
  match nets with
  | [] => this
  | net :: nets => initialized_again nets (initialize net this).2
  end.

Section Sessions.
Variable valid_url : string → bool.
Variable getCredentialData : string → JsVal → Result (option (gmap string string)).

(** The host resolves the node's credential to a record that carries a
    zone and a token. *)
Definition configured (nodeData : INodeData) (options : JsVal)
    (makeZone mcpToken : string) : Prop :=
  ∃ context credentialData,
    opt_get options "context" = Ok context ∧
    getCredentialData (default EmptyString (credential nodeData)) context = Ok credentialData ∧
    credential_field credentialData "makeZone" = Some makeZone ∧ makeZone ≠ EmptyString ∧
    credential_field credentialData "mcpToken" = Some mcpToken ∧ mcpToken ≠ EmptyString.

(** A session: a toolkit built for the URL of that zone and token, on which
    [initialize()] has succeeded, leaving [toolkit]. *)
Definition fetched (net : Net) (makeZone mcpToken : string)
    (toolkit : SSEMCPToolkit) : Prop :=
  ∃ built,
    new_SSEMCPToolkit valid_url (Some {| url := sse_url makeZone mcpToken; headers := None |})
      = Ok built ∧
    initialize net built = (Ok (), toolkit).

(** The toolkits on which no [initialize()] has completed successfully: a
    new one, and one that a failed [initialize()] has left behind. *)
Inductive never_initialized : SSEMCPToolkit → Prop :=
  | after_new (params : option SSEParams) (this : SSEMCPToolkit) :
      new_SSEMCPToolkit valid_url params = Ok this → never_initialized this
  | after_failure (net : Net) (this after : SSEMCPToolkit) (error : Thrown) :
      never_initialized this →
      initialize net this = (Throw error, after) →
      never_initialized after.

(** The session for that zone and token cannot be set up: the constructor
    throws [error], or [initialize()] does. *)
Definition session_fails (net : Net) (makeZone mcpToken : string)
    (error : Thrown) : Prop :=
  new_SSEMCPToolkit valid_url (Some {| url := sse_url makeZone mcpToken; headers := None |})
    = Throw error
  ∨ ∃ built left,
      new_SSEMCPToolkit valid_url
        (Some {| url := sse_url makeZone mcpToken; headers := None |}) = Ok built ∧
      initialize net built = (Throw error, left).

End Sessions.

(** ** The descriptors of the credential and of the node *)

Module Descriptor.

(** The descriptors are data.  A member that a descriptor leaves out is
    [None], the empty list, or [false]; the methods of the node
    ([loadMethods], [init]) are the functions above. *)

(** An option of a declared parameter: its label and its name. *)
Record ParamOption : Type := { option_label : string; option_name : string }.

Record INodeParams : Type := {
  label : string;
  name : string;
  type : string;
  options : list ParamOption;
  default : option string;
  description : option string;
  placeholder : option string;
  credentialNames : list string;
  loadMethod : option string;
  refresh : bool
}.

Record INodeCredential : Type := {
  credential_label : string;
  credential_name : string;
  credential_version : Q;
  credential_inputs : list INodeParams
}.

(** [new MakeApi()] *)
Definition MakeApi : INodeCredential :=
  {| credential_label := "Make API";
     credential_name := "makeApi";
     credential_version := 1;
     credential_inputs :=
       [ {| label := "Make Zone";
            name := "makeZone";
            type := "options";
            options :=
              [ {| option_label := "US1"; option_name := "us1" |};
                {| option_label := "EU1"; option_name := "eu1" |};
                {| option_label := "EU2"; option_name := "eu2" |};
                {| option_label := "AP1"; option_name := "ap1" |};
                {| option_label := "AP2"; option_name := "ap2" |};
                {| option_label := "SA1"; option_name := "sa1" |};
                {| option_label := "CA1"; option_name := "ca1" |};
                {| option_label := "AU1"; option_name := "au1" |} ];
            default := Some "us1";
            description := Some "Select the zone your Make account is hosted in.";
            placeholder := None;
            credentialNames := [];
            loadMethod := None;
            refresh := false |};
         {| label := "Make MCP Token";
            name := "mcpToken";
            type := "password";
            options := [];
            default := None;
            description :=
              Some "Your Make MCP Token. Refer to Make documentation for generating this token.";
            placeholder := Some "Paste your Make MCP Token here";
            credentialNames := [];
            loadMethod := None;
            refresh := false |} ] |}.

Record INode : Type := {
  node_label : string;
  node_name : string;
  node_version : Q;
  node_description : string;
  node_type : string;
  node_icon : string;
  node_category : string;
  node_baseClasses : list string;
  node_inputs : list INodeParams;
  node_credential : INodeParams
}.

(** The fields that [new MakeTool()] sets. *)
Definition MakeTool : INode :=
  {| node_label := "Make.com Tool";
     node_name := "makeTool";
     node_version := 1;
     node_description :=
       "Connects to Make.com MCP server and exposes scenarios as tools.";
     node_type := "MakeTool";
     node_icon := "MakeTool.png";
     node_category := "Tools (MCP)";
     node_baseClasses := ["Tool"];
     node_credential :=
       {| label := "Make.com Credential";
          name := "credential";
          type := "credential";
          options := [];
          default := None;
          description := None;
          placeholder := None;
          credentialNames := ["makeApi"];
          loadMethod := None;
          refresh := false |};
     node_inputs :=
       [ {| label := "Available Scenarios";
            name := "mcpActions";
            type := "asyncMultiOptions";
            options := [];
            default := None;
            description := None;
            placeholder := None;
            credentialNames := [];
            loadMethod := Some "listMakeScenarios";
            refresh := true |} ] |}.

End Descriptor.

Section LoadMethods.
Variable valid_url : string → bool.
Variable localeCompare : string → string → Z.
Variable getCredentialData : string → JsVal → Result (option (gmap string string)).

(** The [loadMethods] object of the node: its methods by name. *)
Definition loadMethods
  : list (string * (Net → INodeData → JsVal → Result (list INodeOptionsValue))) :=
  [("listMakeScenarios", listMakeScenarios valid_url localeCompare getCredentialData)].

End LoadMethods.

(** ** A sample deployment *)

Module Sample.

Definition zone : string := "eu1.make.com".
Definition token : string := "4f1c2a9e".

Definition credentials : gmap string string :=
  <["makeZone" := zone]> (<["mcpToken" := token]> ∅).

Definition url_ok : string → bool := λ _, true.

(** Comparison by code units, as a locale-independent stand-in. *)
Definition ordinal_compare (a b : string) : Z :=
  match OrdersEx.String_as_OT.compare a b with
  | Lt => (-1)%Z
  | Eq => 0%Z
  | Gt => 1%Z
  end.

Definition vault (credential : string) (context : JsVal)
  : Result (option (gmap string string)) :=
  if String.eqb credential "make-1" then Ok (Some credentials)
  else if String.eqb credential "make-2" then Ok (Some (<["makeZone" := zone]> ∅))
  else Ok (Some ∅).

Definition send_email : McpTool :=
  {| mcp_name := "send_email";
     mcp_description := Some "Send an e-mail";
     inputSchema :=
       VObj [("type", VStr "object");
             ("properties",
              VObj [("a", VObj [("type", VStr "string")]);
                    ("b", VObj [("type", VStr "number")])]);
             ("required", VArr [VStr "a"])] |}.

Definition add_row : McpTool :=
  {| mcp_name := "add_row";
     mcp_description := None;
     inputSchema :=
       VObj [("type", VStr "object");
             ("properties", VObj [("cells", VObj [("type", VStr "array")])]);
             ("required", VArr [VStr "cells"])] |}.

Definition catalog : ListToolsResult := {| rawtools := [send_email; add_row] |}.

Definition answering : Endpoint :=
  {| on_connect := Ok ();
     on_tools_list := Ok catalog;
     on_tools_call := λ name arguments,
       if String.eqb name "send_email"
       then Ok {| content := [TextContent "queued";
                              ImageContent "iVBORw0KGgo=" "image/png";
                              TextContent "id 17"];
                  isError := false |}
       else Throw (ErrorObject "Request timed out") |}.

Definition vacant : Endpoint :=
  {| on_connect := Ok ();
     on_tools_list := Ok {| rawtools := [] |};
     on_tools_call := λ name arguments, Throw (ErrorObject "Unknown tool") |}.

Definition refusing : Endpoint :=
  {| on_connect := Throw (ErrorObject "SSE error: connect ECONNREFUSED");
     on_tools_list := Throw (ErrorObject "Not connected");
     on_tools_call := λ name arguments, Throw (ErrorObject "Not connected") |}.

Definition online : Net := λ _, answering.
Definition empty : Net := λ _, vacant.
Definition offline : Net := λ _, refusing.

Definition params : SSEParams :=
  {| url := sse_url zone token; headers := None |}.

(** [new SSEMCPToolkit({ url })] on the sample URL. *)
Definition fresh : SSEMCPToolkit :=
  {| tools := []; _rawTools := None; client := None;
     transport := Some {| transport_url := sse_url zone token |};
     sseParams := params |}.

Definition nodeData : INodeData :=
  {| credential := Some "make-1";
     inputs := Some (<["mcpActions" := VArr [VStr "add_row"]]> ∅) |}.

Definition nodeData_without_token : INodeData :=
  {| credential := Some "make-2"; inputs := None |}.

(** A server that accepts the connection and then fails to list. *)
Definition silent : Endpoint :=
  {| on_connect := Ok ();
     on_tools_list := Throw (ErrorObject "Request timed out");
     on_tools_call := λ name arguments, Throw (ErrorObject "Request timed out") |}.

Definition muted : Net := λ _, silent.

(** The selection as one string, not as an array. *)
Definition nodeData_stringified : INodeData :=
  {| credential := Some "make-1";
     inputs := Some (<["mcpActions" := VStr "[add_row]"]> ∅) |}.

End Sample.

(** * Properties *)

(** ** Facts about the JavaScript layer *)

Lemma bind_Ok {A B} (f : A → Result B) (r : Result A) (b : B) :
  r ≫= f = Ok b → ∃ a, r = Ok a ∧ f a = Ok b.
Proof. destruct r as [a|e]; simpl; [eauto | discriminate]. Qed.

Lemma mapM_Ok_cons {A B} (f : A → Result B) (x : A) (l : list A) (ys : list B) :
  mapM f (x :: l) = Ok ys →
  ∃ y ys', f x = Ok y ∧ mapM f l = Ok ys' ∧ ys = y :: ys'.
Proof.
  simpl. destruct (f x) as [y|e]; simpl; [|discriminate].
  destruct (mapM f l) as [ys'|e]; simpl; [|discriminate].
  intros [= <-]. eauto.
Qed.

(** A successful [mapM] pairs the inputs with the outputs, in order. *)
Lemma mapM_Ok_Forall2 {A B} (f : A → Result B) (l : list A) (ys : list B) :
  mapM f l = Ok ys → Forall2 (λ x y, f x = Ok y) l ys.
Proof.
  revert ys. induction l as [|x l IH]; intros ys H.
  - injection H as <-. constructor.
  - apply mapM_Ok_cons in H as (y & ys' & Hy & Hl & ->).
    constructor; auto.
Qed.

Section Sorting.
Context {A : Type} (compareFn : A → A → Z).

Lemma sort_insert_Permutation (x : A) (l : list A) :
  sort_insert compareFn x l ≡ₚ x :: l.
Proof.
  induction l as [|y l IH]; simpl; [done|].
  destruct (compareFn x y <=? 0)%Z; [done|].
  rewrite IH. apply perm_swap.
Qed.

Lemma Array_sort_Permutation (l : list A) : Array_sort compareFn l ≡ₚ l.
Proof.
  induction l as [|x l IH]; simpl; [done|].
  fold (Array_sort compareFn l). rewrite sort_insert_Permutation.
  by constructor.
Qed.

Lemma Array_sort_length (l : list A) : length (Array_sort compareFn l) = length l.
Proof. apply Permutation_length, Array_sort_Permutation. Qed.

(** A consistent comparator: a total preorder. *)
Hypothesis compare_total : ∀ a b, (0 < compareFn a b → compareFn b a <= 0)%Z.
Hypothesis compare_trans :
  ∀ a b c, (compareFn a b <= 0 → compareFn b c <= 0 → compareFn a c <= 0)%Z.

Let ordered (a b : A) : Prop := (compareFn a b <= 0)%Z.

Lemma sort_insert_sorted (x : A) (l : list A) :
  StronglySorted ordered l → StronglySorted ordered (sort_insert compareFn x l).
Proof.
  induction 1 as [|y l Hl IH Hy]; simpl.
  - repeat constructor.
  - destruct (Z.leb_spec (compareFn x y) 0) as [Hxy|Hxy].
    + constructor; [by constructor|].
      constructor; [done|].
      eapply Forall_impl; [exact Hy|]. intros z Hz. by eapply compare_trans.
    + constructor; [done|].
      rewrite sort_insert_Permutation. constructor; [|done].
      by apply compare_total.
Qed.

Lemma Array_sort_sorted (l : list A) : StronglySorted ordered (Array_sort compareFn l).
Proof.
  induction l as [|x l IH]; simpl; [constructor|].
  by apply sort_insert_sorted.
Qed.
End Sorting.

(** ** Facts about the toolkit *)

Lemma make_tool_Ok (c : Client) (mcpTool : McpTool) (tool : DynamicStructuredTool) :
  make_tool c mcpTool = Ok tool →
  ∃ argsSchema,
    createSchemaModel (inputSchema mcpTool) = Ok argsSchema ∧
    tool = MCPToolSSE c (mcp_name mcpTool)
             (or_else (default EmptyString (mcp_description mcpTool))
                      ("Invoke " +:+ mcp_name mcpTool +:+ " via MCP"))
             argsSchema.
Proof.
  unfold make_tool. intros H. apply bind_Ok in H as (argsSchema & Hs & H).
  injection H as <-. eauto.
Qed.

Lemma get_tools_Ok (this : SSEMCPToolkit) (ts : list DynamicStructuredTool) :
  get_tools this = Ok ts →
  ∃ rawTools c,
    _rawTools this = Some rawTools ∧ client this = Some c ∧
    Forall2 (λ mcpTool tool, make_tool c mcpTool = Ok tool) (rawtools rawTools) ts.
Proof.
  unfold get_tools. destruct (_rawTools this) as [rawTools|]; [|discriminate].
  destruct (client this) as [c|]; [|discriminate].
  intros H. exists rawTools, c. eauto using mapM_Ok_Forall2.
Qed.

Lemma get_tools_not_initialized (this : SSEMCPToolkit) :
  _rawTools this = None → get_tools this = Throw not_initialized.
Proof. unfold get_tools. by intros ->. Qed.

(** What a successful run of the [try] block of [initialize] leaves. *)
Lemma connect_and_list_Ok (net : Net) (this after : SSEMCPToolkit) (tr : SSEClientTransport) :
  connect_and_list net this tr = Ok after →
  ∃ rawTools c,
    on_connect (net (transport_url tr)) = Ok () ∧
    on_tools_list (net (transport_url tr)) = Ok rawTools ∧
    session c = Some (net (transport_url tr)) ∧
    mapM (make_tool c) (rawtools rawTools) = Ok (tools after) ∧
    _rawTools after = Some rawTools ∧ client after = Some c ∧
    transport after = transport this ∧ sseParams after = sseParams this.
Proof.
  unfold connect_and_list, connect. intros H.
  apply bind_Ok in H as (c & Hc & H).
  apply bind_Ok in Hc as ([] & Hconn & Hc). injection Hc as <-.
  apply bind_Ok in H as (rawTools & Hlist & H). simpl in Hlist.
  apply bind_Ok in H as (ts & Hts & H). injection H as <-.
  unfold get_tools in Hts. simpl in *.
  eexists _, _. repeat split; eauto.
Qed.

(** The three ways [initialize] can go. *)
Lemma initialize_cases (net : Net) (this : SSEMCPToolkit) :
  (∃ rawTools, _rawTools this = Some rawTools ∧ initialize net this = (Ok (), this))
  ∨ (_rawTools this = None ∧ transport this = None ∧
     initialize net this =
       (Throw transport_missing,
        {| tools := tools this; _rawTools := None; client := Some flowise_client;
           transport := None; sseParams := sseParams this |}))
  ∨ (∃ tr, _rawTools this = None ∧ transport this = Some tr ∧
       ((∃ after, initialize net this = (Ok (), after) ∧ is_Some (_rawTools after))
        ∨ (∃ error, initialize net this = (Throw error, cleared this)))).
Proof.
  unfold initialize.
  destruct (_rawTools this) as [rawTools|] eqn:Hraw; [left; eauto|right].
  simpl. destruct (transport this) as [tr|] eqn:Htr; [right|left; done].
  exists tr. do 2 (split; [done|]).
  match goal with |- context [connect_and_list ?n ?t ?r] =>
    destruct (connect_and_list n t r) as [after|error] eqn:Hrun end.
  - left. exists after. split; [done|].
    apply connect_and_list_Ok in Hrun as (r & c & _ & _ & _ & _ & -> & _). eauto.
  - right. eexists. reflexivity.
Qed.

(** After a failed [initialize] nothing is cached and there is no transport. *)
Lemma initialize_failed (net : Net) (this after : SSEMCPToolkit) (error : Thrown) :
  initialize net this = (Throw error, after) →
  _rawTools after = None ∧ transport after = None.
Proof.
  destruct (initialize_cases net this)
    as [(r & _ & ->)|[(_ & _ & ->)|(tr & _ & _ & [(a & -> & _)|(e & ->)])]];
    intros H; try discriminate H; injection H as _ <-; done.
Qed.

(** Without a transport [initialize] stops at its guard, whatever the network. *)
Lemma initialize_without_transport (net : Net) (this : SSEMCPToolkit) :
  _rawTools this = None → transport this = None →
  initialize net this =
    (Throw transport_missing,
     {| tools := tools this; _rawTools := None; client := Some flowise_client;
        transport := None; sseParams := sseParams this |}).
Proof. unfold initialize. by intros -> ->. Qed.

(** ** [initialize()] after a failure *)

(** C1, as stated, fails.  On the sample toolkit a first [initialize()]
    against a server that refuses the connection fails and clears the
    state; a second [initialize()] on the same instance, now against a
    server on which a new toolkit initializes, does not connect: it fails
    with "SSE Transport is not initialized." and leaves a client behind. *)
Lemma initialize_retry_counterexample :
  new_SSEMCPToolkit Sample.url_ok (Some Sample.params) = Ok Sample.fresh ∧
  (initialize Sample.offline Sample.fresh).2 = cleared Sample.fresh ∧
  (∃ error, (initialize Sample.offline Sample.fresh).1 = Throw error) ∧
  (initialize Sample.online Sample.fresh).1 = Ok () ∧
  (initialize Sample.online (initialize Sample.offline Sample.fresh).2).1
    = Throw transport_missing ∧
  client (initialize Sample.online (initialize Sample.offline Sample.fresh).2).2
    = Some flowise_client.
Proof. repeat split; try reflexivity. eexists. reflexivity. Qed.

(** Once the transport and the cache are gone they stay so, and the tools
    list stays empty, however many [initialize()] calls follow. *)
Lemma initialized_again_blocked (nets : list Net) (this : SSEMCPToolkit) :
  _rawTools this = None → transport this = None → tools this = [] →
  _rawTools (initialized_again nets this) = None ∧
  transport (initialized_again nets this) = None ∧
  tools (initialized_again nets this) = [].
Proof.
  revert this. induction nets as [|net nets IH]; intros this Hraw Htr Htools; [done|].
  simpl. rewrite initialize_without_transport by done. by apply IH.
Qed.

(** C1 (amended).  When [initialize()] fails on a toolkit that has its
    transport (the failure comes from connecting, listing or building the
    tools), the client, the transport and the raw-tool cache are null and
    the tools list is empty; every later [initialize()] on that instance,
    the first one and any one after any number of others, throws "SSE
    Transport is not initialized." whatever the server does, and leaves a
    new, unconnected client, still no transport, no cache and no tool. *)
Theorem initialize_failure_clears_and_blocks
    (net : Net) (this after : SSEMCPToolkit) (tr : SSEClientTransport) (error : Thrown) :
  transport this = Some tr →
  initialize net this = (Throw error, after) →
  client after = None ∧ transport after = None ∧
  _rawTools after = None ∧ tools after = [] ∧
  ∀ (nets : list Net) (net' : Net),
    (initialize net' (initialized_again nets after)).1 = Throw transport_missing ∧
    client (initialize net' (initialized_again nets after)).2 = Some flowise_client ∧
    transport (initialize net' (initialized_again nets after)).2 = None ∧
    _rawTools (initialize net' (initialized_again nets after)).2 = None ∧
    tools (initialize net' (initialized_again nets after)).2 = [].
Proof.
  intros Htr Hfail.
  assert (after = cleared this) as ->.
  { destruct (initialize_cases net this)
      as [(r & _ & H)|[(_ & Hnone & _)|(tr' & _ & _ & [(a & H & _)|(e & H)])]];
      congruence. }
  do 4 (split; [reflexivity|]).
  intros nets net'.
  destruct (initialized_again_blocked nets (cleared this) eq_refl eq_refl eq_refl)
    as (Hraw & Hnone & Htools).
  rewrite initialize_without_transport by done. simpl. by rewrite Htools.
Qed.

Lemma initialize_failure_clears_and_blocks_witness :
  transport Sample.fresh = Some {| transport_url := sse_url Sample.zone Sample.token |} ∧
  (initialize Sample.online
     (initialized_again [Sample.online; Sample.offline]
        (initialize Sample.offline Sample.fresh).2)).1
    = Throw transport_missing.
Proof.
  split; [reflexivity|].
  eapply (initialize_failure_clears_and_blocks Sample.offline Sample.fresh);
    reflexivity.
Defined.

(** ** [get_tools()] before a successful [initialize()] *)

Section Uninitialized.
Variable valid_url : string → bool.

Lemma new_SSEMCPToolkit_fresh (params : option SSEParams) (this : SSEMCPToolkit) :
  new_SSEMCPToolkit valid_url params = Ok this →
  _rawTools this = None ∧ client this = None ∧ tools this = [] ∧
  ∃ p, params = Some p ∧ sseParams this = p ∧
       transport this = Some {| transport_url := url p |}.
Proof.
  unfold new_SSEMCPToolkit. destruct params as [p|]; [|discriminate].
  destruct (String.eqb (url p) EmptyString); [discriminate|].
  destruct (valid_url (url p)); [|discriminate].
  intros [= <-]. simpl. eauto 10.
Qed.

Lemma never_initialized_no_cache (this : SSEMCPToolkit) :
  never_initialized valid_url this → _rawTools this = None.
Proof.
  induction 1 as [params this Hnew|net this error after _ _ Hfail].
  - by apply new_SSEMCPToolkit_fresh in Hnew as (? & _).
  - by apply initialize_failed in Hfail as (? & _).
Qed.

(** C8.  On a toolkit on which no [initialize()] has completed
    successfully (a new one, or one left by any number of failed
    [initialize()] calls), [get_tools()] throws the error
    "Toolkit not initialized. Call initialize() first.". *)
Theorem get_tools_before_initialize (this : SSEMCPToolkit) :
  never_initialized valid_url this →
  get_tools this = Throw (ErrorObject "Toolkit not initialized. Call initialize() first.").
Proof.
  intros H. by apply get_tools_not_initialized, never_initialized_no_cache.
Qed.

End Uninitialized.

Lemma get_tools_before_initialize_witness :
  never_initialized Sample.url_ok (initialize Sample.offline Sample.fresh).2 ∧
  get_tools (initialize Sample.offline Sample.fresh).2
    = Throw (ErrorObject "Toolkit not initialized. Call initialize() first.").
Proof.
  assert (never_initialized Sample.url_ok (initialize Sample.offline Sample.fresh).2) as H.
  { eapply (after_failure _ Sample.offline Sample.fresh).
    - by apply (after_new _ (Some Sample.params)).
    - reflexivity. }
  split; [exact H|].
  exact (get_tools_before_initialize Sample.url_ok _ H).
Defined.

(** ** Invoking a tool *)

(** C3.  For a tool built by [get_tools()] and any input, when the
    [tools/call] request fails the invocation does not throw: it returns
    "Error executing tool <name>: <message>", which begins with
    "Error executing tool". *)
Theorem tool_call_failure_is_returned
    (this : SSEMCPToolkit) (ts : list DynamicStructuredTool)
    (tool : DynamicStructuredTool) (c : Client) (input : JsVal) (error : Thrown) :
  get_tools this = Ok ts →
  tool ∈ ts →
  client this = Some c →
  request_tools_call c (name tool) input = Throw error →
  func tool input
    = Ok ("Error executing tool " +:+ name tool +:+ ": " +:+ error_text error) ∧
  String.prefix "Error executing tool"
    ("Error executing tool " +:+ name tool +:+ ": " +:+ error_text error) = true.
Proof.
  intros Hts Hin Hc Hfail. split; [|reflexivity].
  apply get_tools_Ok in Hts as (rawTools & c' & _ & Hc' & Hall).
  assert (c' = c) as -> by congruence.
  apply list_elem_of_lookup in Hin as [i Hi].
  destruct (Forall2_lookup_r _ _ _ _ _ Hall Hi) as (mcpTool & _ & Hmake).
  apply make_tool_Ok in Hmake as (argsSchema & _ & ->).
  simpl in *. unfold MCPToolSSE_func. by rewrite Hfail.
Qed.

Lemma tool_call_failure_is_returned_witness :
  ∃ tool,
    tools (initialize Sample.online Sample.fresh).2 !! 1%nat = Some tool ∧
    func tool (VObj [("cells", VArr [])])
      = Ok "Error executing tool add_row: Request timed out".
Proof.
  eexists. split; [reflexivity|].
  refine (proj1 (tool_call_failure_is_returned
                   (initialize Sample.online Sample.fresh).2 _ _ _
                   (VObj [("cells", VArr [])]) (ErrorObject "Request timed out")
                   _ _ _ _)).
  - reflexivity.
  - apply list_elem_of_lookup. exists 1%nat. reflexivity.
  - reflexivity.
  - reflexivity.
Defined.

Lemma text_fields_filter (content : list ContentPart) :
  map part_text (filter (λ part, part_type part = "text") content) = text_fields content.
Proof.
  induction content as [|[text|data mimeType|resource] rest IH]; [done|..].
  - rewrite filter_cons_True by done. simpl. by rewrite IH.
  - by rewrite filter_cons_False by done.
  - by rewrite filter_cons_False by done.
Qed.

(** C6.  When the [tools/call] request succeeds, the invocation returns
    the [text] fields of the [text]-typed parts of the response joined by
    newlines, the other parts being dropped; when that string is empty, as
    it is when there is no [text] part, it returns
    "[No text content returned]". *)
Theorem tool_call_success_returns_text
    (c : Client) (name description : string) (argsSchema : ZodObject)
    (input : JsVal) (response : CallToolResult) :
  request_tools_call c name input = Ok response →
  let joined := String.concat newline (text_fields (content response)) in
  func (MCPToolSSE c name description argsSchema) input
    = Ok (if decide (joined = EmptyString) then "[No text content returned]" else joined) ∧
  (text_fields (content response) = [] →
   func (MCPToolSSE c name description argsSchema) input
     = Ok "[No text content returned]").
Proof.
  intros Hok joined.
  assert (func (MCPToolSSE c name description argsSchema) input
          = Ok (if decide (joined = EmptyString) then "[No text content returned]" else joined)) as H.
  { simpl. unfold MCPToolSSE_func. rewrite Hok. simpl.
    rewrite text_fields_filter. fold joined. unfold or_else.
    destruct (String.eqb_spec joined EmptyString); by case_decide. }
  split; [exact H|].
  intros Hnone. rewrite H. subst joined. by rewrite Hnone.
Qed.

Lemma tool_call_success_returns_text_witness :
  func (MCPToolSSE (default flowise_client (client (initialize Sample.online Sample.fresh).2))
          "send_email" "Send an e-mail" (Zod.object []))
       (VObj [("a", VStr "x")])
    = Ok ("queued" +:+ newline +:+ "id 17").
Proof.
  refine (proj1 (tool_call_success_returns_text
                   (default flowise_client
                      (client (initialize Sample.online Sample.fresh).2))
                   "send_email" "Send an e-mail" (Zod.object [])
                   (VObj [("a", VStr "x")])
                   {| content := [TextContent "queued";
                                  ImageContent "iVBORw0KGgo=" "image/png";
                                  TextContent "id 17"];
                      isError := false |} _)).
  reflexivity.
Defined.

(** ** The node: discovery and materialization *)

Lemma or_else_default (a x n : string) :
  or_else (or_else a ("Invoke " +:+ x +:+ " via MCP")) n
  = or_else a ("Invoke " +:+ x +:+ " via MCP").
Proof.
  unfold or_else at 2 3. destruct (String.eqb a EmptyString) eqn:Ha; [done|].
  unfold or_else. by rewrite Ha.
Qed.

Lemma scenario_of_make_tool (c : Client) (mcpTool : McpTool) (tool : DynamicStructuredTool) :
  make_tool c mcpTool = Ok tool →
  name tool = mcp_name mcpTool ∧ scenario_of tool = scenario_of_descriptor mcpTool.
Proof.
  intros H. apply make_tool_Ok in H as (argsSchema & _ & ->).
  split; [done|]. unfold scenario_of, scenario_of_descriptor. simpl.
  by rewrite or_else_default.
Qed.

Lemma scenarios_of_tools (c : Client) (mcpTools : list McpTool)
    (ts : list DynamicStructuredTool) :
  Forall2 (λ mcpTool tool, make_tool c mcpTool = Ok tool) mcpTools ts →
  map scenario_of ts = map scenario_of_descriptor mcpTools.
Proof.
  induction 1 as [|mcpTool tool mcpTools ts H _ IH]; simpl; [done|].
  apply scenario_of_make_tool in H as [_ ->]. by rewrite IH.
Qed.

Lemma StronglySorted_transfer {A} (R R' : A → A → Prop) (P : A → Prop) (l : list A) :
  (∀ a b, P a → P b → R a b → R' a b) →
  Forall P l → StronglySorted R l → StronglySorted R' l.
Proof.
  intros HR HP Hs. induction Hs as [|a l Hs IH Ha]; [constructor|].
  apply Forall_cons in HP as [Pa HP].
  constructor; [by apply IH|].
  rewrite Forall_forall in *. eauto.
Qed.

Lemma StronglySorted_map {A B} (f : A → B) (R : B → B → Prop) (l : list A) :
  StronglySorted (λ a b, R (f a) (f b)) l → StronglySorted R (map f l).
Proof.
  induction 1 as [|a l _ IH Ha]; simpl; constructor; [done|].
  by apply Forall_fmap.
Qed.

Lemma ordinal_compare_total (a b : string) :
  (0 < Sample.ordinal_compare a b → Sample.ordinal_compare b a <= 0)%Z.
Proof.
  unfold Sample.ordinal_compare.
  destruct (OrdersEx.String_as_OT.compare_spec a b) as [Heq|Hlt|Hgt]; try lia.
  intros _. unfold OrdersEx.String_as_OT.lt in Hgt. rewrite Hgt. lia.
Qed.

Lemma ordinal_compare_trans (a b c : string) :
  (Sample.ordinal_compare a b <= 0 → Sample.ordinal_compare b c <= 0 →
   Sample.ordinal_compare a c <= 0)%Z.
Proof.
  unfold Sample.ordinal_compare.
  destruct (OrdersEx.String_as_OT.compare_spec a b) as [->|Hab|Hab]; try lia.
  destruct (OrdersEx.String_as_OT.compare_spec b c) as [<-|Hbc|Hbc]; try lia.
  - intros _ _. unfold OrdersEx.String_as_OT.lt in Hab. rewrite Hab. lia.
  - intros _ _.
    assert (OrdersEx.String_as_OT.lt a c) as Hac by (etransitivity; eassumption).
    unfold OrdersEx.String_as_OT.lt in Hac. rewrite Hac. lia.
Qed.

#[local] Arguments new_SSEMCPToolkit : simpl never.
#[local] Arguments initialize : simpl never.
#[local] Arguments sse_url : simpl never.

Section Node.
Variable valid_url : string → bool.
Variable localeCompare : string → string → Z.
Variable getCredentialData : string → JsVal → Result (option (gmap string string)).


Lemma missing_false (s : string) : s ≠ EmptyString → missing (Some s) = false.
Proof. intros H. simpl. by apply String.eqb_neq. Qed.

(** What a session leaves in the toolkit. *)
Lemma fetched_session (net : Net) (makeZone mcpToken : string) (toolkit : SSEMCPToolkit) :
  fetched valid_url net makeZone mcpToken toolkit →
  ∃ rawTools c,
    on_tools_list (net (sse_url makeZone mcpToken)) = Ok rawTools ∧
    session c = Some (net (sse_url makeZone mcpToken)) ∧
    _rawTools toolkit = Some rawTools ∧ client toolkit = Some c ∧
    Forall2 (λ mcpTool tool, make_tool c mcpTool = Ok tool)
            (rawtools rawTools) (tools toolkit).
Proof.
  intros (built & Hnew & Hinit).
  apply new_SSEMCPToolkit_fresh in Hnew as (Hraw & _ & _ & p & [= <-] & _ & Htr).
  unfold initialize in Hinit. rewrite Hraw in Hinit. simpl in Hinit.
  rewrite Htr in Hinit.
  match type of Hinit with context [connect_and_list ?n ?t ?r] =>
    destruct (connect_and_list n t r) as [after|error] eqn:Hrun end;
    [|discriminate].
  injection Hinit as <-.
  apply connect_and_list_Ok in Hrun
    as (rawTools & c & _ & Hlist & Hsess & Hts & Hraw' & Hc & _ & _).
  simpl in *. exists rawTools, c. eauto 10 using mapM_Ok_Forall2.
Qed.

(** [listMakeScenarios] once the credentials are there and the session is up. *)
Lemma listMakeScenarios_fetched (net : Net) (nodeData : INodeData) (options : JsVal)
    (makeZone mcpToken : string) (toolkit : SSEMCPToolkit) :
  configured getCredentialData nodeData options makeZone mcpToken →
  fetched valid_url net makeZone mcpToken toolkit →
  listMakeScenarios valid_url localeCompare getCredentialData net nodeData options
  = Ok (if (length (tools toolkit) =? 0)%nat then [NO_SCENARIOS]
        else Array_sort (by_label localeCompare) (map scenario_of (tools toolkit))).
Proof.
  intros (context & credentialData & Hctx & Hcred & Hzone & Hz & Htoken & Ht)
         (built & Hnew & Hinit).
  unfold listMakeScenarios. rewrite Hctx. simpl. rewrite Hcred. simpl.
  rewrite Hzone, Htoken, !missing_false by done. simpl.
  rewrite Hnew. simpl. rewrite Hinit. simpl.
  by destruct (length (tools toolkit) =? 0)%nat.
Qed.

(** C10.  When the session fetches a catalog of zero tools, the discovery
    callback returns exactly one option, the sentinel named
    "NO_SCENARIOS" with label "No Scenarios Found", not an empty list. *)
Theorem listMakeScenarios_empty_catalog
    (net : Net) (nodeData : INodeData) (options : JsVal)
    (makeZone mcpToken : string) (toolkit : SSEMCPToolkit) :
  configured getCredentialData nodeData options makeZone mcpToken →
  fetched valid_url net makeZone mcpToken toolkit →
  _rawTools toolkit = Some {| rawtools := [] |} →
  listMakeScenarios valid_url localeCompare getCredentialData net nodeData options
  = Ok [ {| opt_label := "No Scenarios Found";
            opt_name := "NO_SCENARIOS";
            opt_description := "Check Make.com MCP server or token." |} ].
Proof.
  intros Hconf Hfetched Hraw.
  rewrite (listMakeScenarios_fetched _ _ _ _ _ _ Hconf Hfetched).
  apply fetched_session in Hfetched as (rawTools & c & _ & _ & Hraw' & _ & Hall).
  assert (rawTools = {| rawtools := [] |}) as -> by congruence.
  apply Forall2_length in Hall. simpl in Hall. by rewrite <- Hall.
Qed.

(** C2 (amended).  When the session fetches a catalog of N >= 1 tools with
    unique names and the locale comparison is a total preorder, the
    discovery callback returns exactly N options: the {name, description}
    pairs of the discovered tools, one per tool, with names sorted
    ascending under the locale comparison. *)
Theorem listMakeScenarios_sorted_catalog
    (net : Net) (nodeData : INodeData) (options : JsVal)
    (makeZone mcpToken : string) (toolkit : SSEMCPToolkit) (rawTools : ListToolsResult) :
  (∀ a b, (0 < localeCompare a b → localeCompare b a <= 0)%Z) →
  (∀ a b c, (localeCompare a b <= 0 → localeCompare b c <= 0 → localeCompare a c <= 0)%Z) →
  configured getCredentialData nodeData options makeZone mcpToken →
  fetched valid_url net makeZone mcpToken toolkit →
  _rawTools toolkit = Some rawTools →
  rawtools rawTools ≠ [] →
  NoDup (map mcp_name (rawtools rawTools)) →
  ∃ scenarios,
    listMakeScenarios valid_url localeCompare getCredentialData net nodeData options = Ok scenarios ∧
    length scenarios = length (rawtools rawTools) ∧
    scenarios ≡ₚ map scenario_of_descriptor (rawtools rawTools) ∧
    NoDup (map opt_name scenarios) ∧
    StronglySorted (λ a b, (localeCompare a b <= 0)%Z) (map opt_name scenarios).
Proof.
  intros Htotal Htrans Hconf Hfetched Hraw Hnonempty Hnodup.
  rewrite (listMakeScenarios_fetched _ _ _ _ _ _ Hconf Hfetched).
  apply fetched_session in Hfetched as (rawTools' & c & _ & _ & Hraw' & _ & Hall).
  assert (rawTools' = rawTools) as -> by congruence.
  pose proof (Forall2_length _ _ _ Hall) as Hlen.
  destruct (length (tools toolkit) =? 0)%nat eqn:Hzero.
  { apply Nat.eqb_eq in Hzero. rewrite Hzero in Hlen.
    by destruct (rawtools rawTools). }
  rewrite (scenarios_of_tools _ _ _ Hall).
  set (listed := map scenario_of_descriptor (rawtools rawTools)).
  pose proof (Array_sort_Permutation (by_label localeCompare) listed) as Hperm.
  eexists. split; [reflexivity|]. split; [|split; [exact Hperm|split]].
  - rewrite Array_sort_length. apply length_map.
  - rewrite Hperm. unfold listed. by rewrite map_map.
  - apply StronglySorted_map.
    eapply (StronglySorted_transfer _ _ (λ o, opt_label o = opt_name o)).
    + intros a b Ha Hb. rewrite <- Ha, <- Hb. exact id.
    + rewrite Hperm. unfold listed. by apply Forall_fmap, Forall_true.
    + apply (Array_sort_sorted (by_label localeCompare)); unfold by_label; eauto.
Qed.

(** C4.  When the credential record lacks the zone or the token (the
    field is absent or empty), the discovery callback returns, without
    throwing, exactly one option, named "NO_CRED", and the materializer
    throws an error. *)
Theorem missing_credentials
    (net : Net) (nodeData : INodeData) (unused : string) (options context : JsVal)
    (credentialData : option (gmap string string)) :
  opt_get options "context" = Ok context →
  getCredentialData (default EmptyString (credential nodeData)) context = Ok credentialData →
  missing (credential_field credentialData "makeZone") = true
  ∨ missing (credential_field credentialData "mcpToken") = true →
  (∃ option,
     listMakeScenarios valid_url localeCompare getCredentialData net nodeData options = Ok [option] ∧
     opt_name option = "NO_CRED") ∧
  init valid_url getCredentialData net nodeData unused options
  = Throw (ErrorObject "Make.com credentials are not configured for this node.").
Proof.
  intros Hctx Hcred Hmissing.
  assert (missing (credential_field credentialData "makeZone")
          || missing (credential_field credentialData "mcpToken") = true) as Hor.
  { apply orb_true_iff. exact Hmissing. }
  split.
  - exists NO_CRED. split; [|reflexivity].
    unfold listMakeScenarios. rewrite Hctx. simpl. rewrite Hcred. simpl.
    by rewrite Hor.
  - unfold init. rewrite Hctx. simpl. rewrite Hcred. simpl.
    by rewrite Hor.
Qed.

Lemma not_missing (field : option string) :
  missing field = false → ∃ s, field = Some s ∧ s ≠ EmptyString.
Proof.
  destruct field as [s|]; simpl; [|discriminate].
  intros H. exists s. split; [done|]. by apply String.eqb_neq.
Qed.

(** C9.  The tools the materializer returns are a sub-list of the tools
    built, one per descriptor and in order, from the catalog that the
    session of this call fetched from the server of the configured zone
    and token; nothing else is returned (an empty result when no session
    was opened). *)
Theorem init_returns_catalog_tools
    (net : Net) (nodeData : INodeData) (unused : string) (options : JsVal)
    (selected : list DynamicStructuredTool) :
  init valid_url getCredentialData net nodeData unused options = Ok selected →
  selected = [] ∨
  ∃ makeZone mcpToken rawTools c all,
    configured getCredentialData nodeData options makeZone mcpToken ∧
    on_tools_list (net (sse_url makeZone mcpToken)) = Ok rawTools ∧
    session c = Some (net (sse_url makeZone mcpToken)) ∧
    Forall2 (λ mcpTool tool, make_tool c mcpTool = Ok tool) (rawtools rawTools) all ∧
    Forall2 (λ mcpTool tool, name tool = mcp_name mcpTool) (rawtools rawTools) all ∧
    sublist selected all.
Proof.
  unfold init. intros H.
  apply bind_Ok in H as (context & Hctx & H).
  apply bind_Ok in H as (credentialData & Hcred & H).
  destruct (missing (credential_field credentialData "makeZone")) eqn:Hzone;
    [discriminate|].
  destruct (missing (credential_field credentialData "mcpToken")) eqn:Htoken;
    [discriminate|].
  apply not_missing in Hzone as (makeZone & Hzone & Hz).
  apply not_missing in Htoken as (mcpToken & Htoken & Ht).
  rewrite Hzone, Htoken in H. simpl in H.
  apply bind_Ok in H as (isArray & _ & H).
  destruct (negb isArray || _); [injection H as <-; by left|].
  destruct (new_SSEMCPToolkit _ _) as [built|] eqn:Hnew; [|discriminate].
  simpl in H. destruct (initialize net built) as [[[]|error] toolkit] eqn:Hinit;
    [|discriminate].
  simpl in H. injection H as <-. right.
  assert (fetched valid_url net makeZone mcpToken toolkit) as Hfetched by (exists built; done).
  apply fetched_session in Hfetched as (rawTools & c & Hlist & Hsess & _ & _ & Hall).
  exists makeZone, mcpToken, rawTools, c, (tools toolkit).
  split; [by exists context, credentialData|].
  do 3 (split; [done|]). split; [|apply sublist_filter].
  eapply Forall2_impl; [exact Hall|].
  intros mcpTool tool Hmake. by apply scenario_of_make_tool in Hmake as [? _].
Qed.

End Node.

(** ** Derived argument validators *)

Lemma assign_assign {A} (key : string) (a b : A) (l : list (string * A)) :
  assign key b (assign key a l) = assign key b l.
Proof.
  induction l as [|[k c] l IH]; simpl.
  - by rewrite String.eqb_refl.
  - destruct (String.eqb k key) eqn:Hk; simpl; rewrite Hk; [done|]. by rewrite IH.
Qed.

Lemma assign_fresh {A} (key : string) (a : A) (l : list (string * A)) :
  key ∉ l.*1 → assign key a l = l ++ [(key, a)].
Proof.
  induction l as [|[k c] l IH]; simpl; [done|].
  rewrite not_elem_of_cons. intros [Hne Hnotin].
  destruct (String.eqb_spec k key) as [->|_]; [done|]. by rewrite IH.
Qed.

Lemma assoc_None {A} (key : string) (l : list (string * A)) :
  assoc key l = None ↔ key ∉ l.*1.
Proof.
  induction l as [|[k c] l IH]; simpl.
  - split; [intros _; apply not_elem_of_nil|done].
  - rewrite not_elem_of_cons.
    destruct (String.eqb_spec k key) as [->|Hne].
    + split; [discriminate|]. by intros [? _].
    + rewrite IH. split; [done|]. by intros [_ ?].
Qed.

Lemma assoc_NoDup {A} (key : string) (a : A) (l : list (string * A)) :
  NoDup l.*1 → (key, a) ∈ l → assoc key l = Some a.
Proof.
  induction l as [|[k c] l IH]; simpl.
  - intros _ H. by apply elem_of_nil in H.
  - rewrite NoDup_cons, elem_of_cons. intros [Hk Hl] [[= -> ->]|Hin].
    + by rewrite String.eqb_refl.
    + destruct (String.eqb_spec k key) as [->|_]; [|by apply IH].
      destruct Hk. apply list_elem_of_fmap. by exists (key, a).
Qed.

(** One step of the conversion, when it does not throw. *)
Lemma convert_property_Ok (inputSchema : JsVal) (acc acc' : list (string * ZodTypeAny))
    (key : string) (propSchema : JsVal) :
  convert_property inputSchema acc (key, propSchema) = Ok acc' →
  ∃ type required description,
    opt_get propSchema "type" = Ok type ∧
    get inputSchema "required" = Ok required ∧
    opt_get propSchema "description" = Ok description ∧
    acc' = assign key (derived_validator type required description key) acc.
Proof.
  unfold convert_property. intros H.
  apply bind_Ok in H as (type & Htype & H).
  apply bind_Ok in H as (required & Hreq & H).
  apply bind_Ok in H as (isArray & HisArray & H).
  apply bind_Ok in H as (description & Hdesc & H).
  exists type, required, description. do 3 (split; [done|]).
  assert (isArray && match required with VArr items => includes items key | _ => false end
          = match required with VArr items => includes items key | _ => false end) as Hreq'.
  { destruct required; simpl in HisArray; try injection HisArray as <-; done. }
  rewrite Hreq' in H. unfold derived_validator.
  destruct (truthy description); injection H as <-; [|done].
  by rewrite assign_assign.
Qed.

(** The whole conversion, when it does not throw: one validator per
    property, in the order of the properties. *)
Lemma reduce_convert_property (inputSchema : JsVal) (entries : list (string * JsVal))
    (acc shape : list (string * ZodTypeAny)) :
  NoDup (acc.*1 ++ entries.*1) →
  reduce (convert_property inputSchema) entries acc = Ok shape →
  ∃ derived,
    shape = acc ++ derived ∧
    Forall2 (λ entry validator,
               validator.1 = entry.1 ∧
               ∃ type required description,
                 opt_get entry.2 "type" = Ok type ∧
                 get inputSchema "required" = Ok required ∧
                 opt_get entry.2 "description" = Ok description ∧
                 validator.2 = derived_validator type required description entry.1)
            entries derived.
Proof.
  revert acc. induction entries as [|[key propSchema] entries IH]; intros acc Hnodup H.
  - injection H as <-. exists []. by rewrite app_nil_r.
  - simpl in H. apply bind_Ok in H as (acc' & Hstep & H).
    apply convert_property_Ok in Hstep as (type & required & description & Ht & Hr & Hd & ->).
    simpl in Hnodup. apply NoDup_app in Hnodup as (Hacc & Hdisj & Hent).
    apply NoDup_cons in Hent as [Hkey Hent].
    rewrite assign_fresh in H by (intros Hin; eapply Hdisj; [exact Hin|left]).
    apply IH in H as (derived & -> & Hall).
    + eexists (_ :: derived). rewrite <- app_assoc. split; [reflexivity|].
      constructor; [|done]. simpl. eauto 10.
    + rewrite fmap_app. simpl. rewrite <- app_assoc. simpl.
      apply NoDup_app. split; [done|]. split; [|by constructor].
      intros k Hk. rewrite not_elem_of_cons. split.
      * intros ->. eapply Hdisj; [exact Hk|left].
      * intros Hin. eapply Hdisj; [exact Hk|by right].
Qed.

Lemma parse_sample (t : ZodTypeAny) : parse_value t (sample t) = Ok (Some (sample t)).
Proof. induction t as [|[]| | | |]; done. Qed.

Lemma parse_keys_merge (props : list (string * JsVal)) (shape : list (string * ZodTypeAny)) :
  (∃ pairs final,
     mapM (parse_key props) shape = Ok pairs ∧ merge_pairs pairs = Some final)
  ↔ Forall (field_ok props) shape.
Proof.
  induction shape as [|[key validator] shape IH].
  - split; [constructor|]. intros _. by exists [], [].
  - split.
    + intros (pairs & final & Hpairs & Hfinal).
      apply mapM_Ok_cons in Hpairs as (pair & pairs' & Hpair & Hpairs & ->).
      unfold parse_key in Hpair. apply bind_Ok in Hpair as (out & Hout & [= <-]).
      simpl in Hfinal. destruct out as [value|]; [|done]. simpl in Hfinal.
      destruct (merge_pairs pairs') as [final'|] eqn:Hfinal'; [|done].
      constructor; [by exists value|]. apply IH. eauto.
    + intros H. apply Forall_cons in H as [[value Hvalue] H].
      apply IH in H as (pairs & final & Hpairs & Hfinal).
      simpl in Hvalue. simpl. rewrite Hvalue. simpl. rewrite Hpairs. simpl.
      eexists _, _. split; [reflexivity|]. simpl. by rewrite Hfinal.
Qed.

Lemma accepts_object (props : list (string * JsVal)) (shape : list (string * ZodTypeAny)) :
  accepts (Zod.object shape) (VObj props) = true ↔ Forall (field_ok props) shape.
Proof.
  rewrite <- parse_keys_merge. unfold accepts, safeParse. simpl.
  destruct (mapM (parse_key props) shape) as [pairs|error]; simpl.
  - destruct (merge_pairs pairs) as [final|] eqn:Hfinal; simpl.
    + split; [eauto|done].
    + split; [done|]. intros (? & ? & [= <-] & ?). congruence.
  - split; [done|]. by intros (? & ? & ? & _).
Qed.

Lemma sample_object_omits (shape : list (string * ZodTypeAny)) (omit : string) :
  assoc omit (sample_object shape omit) = None.
Proof.
  apply assoc_None. unfold sample_object. intros Hin.
  apply list_elem_of_fmap in Hin as ([k v] & -> & Hin).
  apply list_elem_of_fmap in Hin as ([k' t] & [= -> ->] & Hin).
  by apply list_elem_of_filter in Hin as [? _].
Qed.

Lemma sample_object_gives (shape : list (string * ZodTypeAny)) (omit key : string)
    (validator : ZodTypeAny) :
  NoDup shape.*1 → (key, validator) ∈ shape → key ≠ omit →
  assoc key (sample_object shape omit) = Some (sample validator).
Proof.
  intros Hnodup Hin Hne. apply assoc_NoDup.
  - unfold sample_object. rewrite <- list_fmap_compose.
    eapply sublist_NoDup; [exact Hnodup|].
    apply (fmap_sublist fst), sublist_filter.
  - unfold sample_object.
    apply (list_elem_of_fmap_2 (λ entry, (entry.1, sample entry.2)) _ (key, validator)).
    by apply list_elem_of_filter.
Qed.

(** What a derived validator makes of an absent value. *)
Lemma derived_validator_absent (type required description : JsVal) (key : string) :
  parse_value (derived_validator type required description key) VUndefined
  = Ok (if primitive_type type
           && match required with VArr items => includes items key | _ => false end
        then None else Some VUndefined).
Proof.
  unfold derived_validator, primitive_type, zodType_of.
  destruct (truthy description); simpl;
    destruct (match required with VArr items => includes items key | _ => false end);
    destruct (is_string type "string"), (is_string type "number"),
             (is_string type "boolean"), (is_string type "integer"); done.
Qed.




(** C5, as stated, fails in its general part.  The sample tool [add_row]
    declares the property [cells] of type ['array'] and lists it in
    [required]; the derived validator accepts the empty object, which
    omits [cells]. *)
Lemma required_property_counterexample :
  listed_required (inputSchema Sample.add_row) "cells" = true ∧
  createSchemaModel (inputSchema Sample.add_row) = Ok (Zod.object [("cells", ZodAny)]) ∧
  assoc "cells" ([] : list (string * JsVal)) = None ∧
  accepts (Zod.object [("cells", ZodAny)]) (VObj []) = true ∧
  ¬ mandatory (Zod.object [("cells", ZodAny)]) "cells".
Proof.
  repeat split; try reflexivity.
  intros H. by specialize (H [] eq_refl).
Qed.

Lemma member_own (props : list (string * JsVal)) (key : string) (value : JsVal) :
  assoc key props = Some value → member props key = Some value.
Proof. unfold member. by intros ->. Qed.

Lemma member_inherited (props : list (string * JsVal)) (key : string) :
  assoc key props = None → member props key = assoc key Object_prototype.
Proof. unfold member. by intros ->. Qed.

(** C5 (amended).  For a schema whose properties, of distinct keys and
    none of them [__proto__], are converted (the guard passes and the
    conversion does not throw), a property whose key is not the name of a
    member that every object inherits is mandatory for the derived
    validator exactly when the key appears in the schema's [required]
    array and the declared type is one of ['string'], ['number'],
    ['boolean'], ['integer']; such a property of any other type is never
    mandatory.  In particular, for properties {a: string, b: number} with
    required: ["a"], the validator refuses every object that omits [a] and
    accepts the objects that give a string for [a] and omit [b]. *)
Theorem required_primitive_properties_are_mandatory
    (inputSchema : JsVal) (properties : list (string * JsVal)) (schema : ZodObject) :
  invalid_or_empty inputSchema = Ok false →
  get inputSchema "properties" = Ok (VObj properties) →
  NoDup properties.*1 →
  "__proto__" ∉ properties.*1 →
  convert_properties inputSchema = Ok schema →
  createSchemaModel inputSchema = Ok schema ∧
  (∀ key propSchema type,
     (key, propSchema) ∈ properties →
     assoc key Object_prototype = None →
     opt_get propSchema "type" = Ok type →
     (mandatory schema key
      ↔ primitive_type type = true ∧ listed_required inputSchema key = true)) ∧
  (∀ a b,
     properties = [("a", a); ("b", b)] →
     opt_get a "type" = Ok (VStr "string") →
     opt_get b "type" = Ok (VStr "number") →
     get inputSchema "required" = Ok (VArr [VStr "a"]) →
     (∀ props, assoc "a" props = None → accepts schema (VObj props) = false) ∧
     (∀ props s, assoc "a" props = Some (VStr s) → assoc "b" props = None →
                 accepts schema (VObj props) = true)).
Proof.
  intros Hguard Hprops Hnodup _ Hconv.
  assert (createSchemaModel inputSchema = Ok schema) as Hmodel.
  { unfold createSchemaModel. rewrite Hguard. simpl. by rewrite Hconv. }
  unfold convert_properties in Hconv. rewrite Hprops in Hconv. simpl in Hconv.
  apply bind_Ok in Hconv as (shape & Hreduce & [= <-]).
  apply reduce_convert_property in Hreduce as (derived & -> & Hall); [|done].
  simpl in *.
  assert (derived.*1 = properties.*1) as Hkeys.
  { clear -Hall. induction Hall as [|? ? ? ? [Hkey _] _ IH]; csimpl; [done|].
    by rewrite Hkey, IH. }
  assert (NoDup derived.*1) as Hnodup' by by rewrite Hkeys.
  (* the validator derived for each property *)
  assert (∀ key propSchema type,
            (key, propSchema) ∈ properties → opt_get propSchema "type" = Ok type →
            ∃ required description,
              get inputSchema "required" = Ok required ∧
              (key, derived_validator type required description key) ∈ derived)
    as Hderived.
  { intros key propSchema type Hin Htype.
    apply list_elem_of_lookup in Hin as [i Hi].
    destruct (Forall2_lookup_l _ _ _ _ _ Hall Hi)
      as ([key' validator] & Hi' & Hkey & type' & required & description
          & Htype' & Hreq & _ & Hvalidator).
    simpl in *. subst key' validator.
    assert (type' = type) as -> by congruence.
    exists required, description. split; [done|].
    apply list_elem_of_lookup. by exists i. }
  (* mandatory exactly when the absent value is refused *)
  assert (∀ key validator,
            (key, validator) ∈ derived →
            assoc key Object_prototype = None →
            (mandatory (Zod.object derived) key
             ↔ parse_value validator VUndefined = Ok None))
    as Hmandatory.
  { intros key validator Hin Hordinary. split.
    - intros Hm.
      destruct (parse_value validator VUndefined) as [[out|]|error] eqn:Habsent;
        [exfalso| done |exfalso].
      + specialize (Hm (sample_object derived key) (sample_object_omits _ _)).
        apply not_true_iff_false in Hm. apply Hm, accepts_object, Forall_forall.
        intros [k t] Hk. unfold field_ok. simpl.
        destruct (decide (k = key)) as [->|Hne].
        * rewrite member_inherited, Hordinary by apply sample_object_omits. simpl.
          assert (t = validator) as ->; [|eauto].
          pose proof (assoc_NoDup _ _ _ Hnodup' Hk).
          pose proof (assoc_NoDup _ _ _ Hnodup' Hin). congruence.
        * rewrite (member_own _ _ (sample t))
            by (by apply sample_object_gives).
          simpl. rewrite parse_sample. eauto.
      + clear -Habsent. induction validator as [|[]| | | |]; simpl in *; eauto; done.
    - intros Habsent props Homit. apply not_true_iff_false. intros Hacc.
      apply accepts_object in Hacc. rewrite Forall_forall in Hacc.
      destruct (Hacc _ Hin) as [out Hout]. simpl in Hout.
      rewrite (member_inherited _ _ Homit), Hordinary in Hout. simpl in Hout.
      congruence. }
  split; [exact Hmodel|]. split.
  - intros key propSchema type Hin Hordinary Htype.
    destruct (Hderived _ _ _ Hin Htype) as (required & description & Hreq & Hd).
    rewrite (Hmandatory _ _ Hd Hordinary), derived_validator_absent.
    unfold listed_required. rewrite Hreq.
    destruct (primitive_type type); simpl; [|intuition congruence].
    destruct required as [| | | | |items| | |]; try (intuition congruence).
    destruct (includes items key); intuition congruence.
  - intros a b -> Ha Hb Hreq.
    destruct (Hderived "a" a (VStr "string")) as (ra & da & Hra & Hva);
      [by left|done|].
    destruct (Hderived "b" b (VStr "number")) as (rb & db & Hrb & Hvb);
      [by right; left|done|].
    assert (ra = VArr [VStr "a"]) as -> by congruence.
    assert (rb = VArr [VStr "a"]) as -> by congruence.
    split.
    + apply (Hmandatory _ _ Hva eq_refl). by rewrite derived_validator_absent.
    + intros props s Hsa Hsb. apply accepts_object, Forall_forall.
      intros [k t] Hk. unfold field_ok. simpl.
      assert (k ∈ ["a"; "b"]) as Hk'.
      { change ["a"; "b"] with ([("a", a); ("b", b)].*1). rewrite <- Hkeys.
        apply list_elem_of_fmap. by exists (k, t). }
      apply elem_of_cons in Hk' as [->|Hk'];
        [|apply list_elem_of_singleton in Hk' as ->].
      * assert (t = derived_validator (VStr "string") (VArr [VStr "a"]) da "a") as ->.
        { pose proof (assoc_NoDup _ _ _ Hnodup' Hk).
          pose proof (assoc_NoDup _ _ _ Hnodup' Hva). congruence. }
        rewrite (member_own _ _ _ Hsa). unfold derived_validator. simpl.
        destruct (truthy da); simpl; eauto.
      * assert (t = derived_validator (VStr "number") (VArr [VStr "a"]) db "b") as ->.
        { pose proof (assoc_NoDup _ _ _ Hnodup' Hk).
          pose proof (assoc_NoDup _ _ _ Hnodup' Hvb). congruence. }
        rewrite (member_inherited _ _ Hsb). unfold derived_validator. simpl.
        destruct (truthy db); simpl; eauto.
Qed.

Lemma required_primitive_properties_are_mandatory_witness :
  ∃ schema,
    createSchemaModel (inputSchema Sample.send_email) = Ok schema ∧
    accepts schema (VObj [("b", VNum 1)]) = false ∧
    accepts schema (VObj [("a", VStr "x")]) = true.
Proof.
  destruct (required_primitive_properties_are_mandatory
              (inputSchema Sample.send_email)
              [("a", VObj [("type", VStr "string")]);
               ("b", VObj [("type", VStr "number")])]
              (Zod.object [("a", ZodString); ("b", ZodOptional (ZodNumber false))]))
    as (Hmodel & _ & Hexample).
  - reflexivity.
  - reflexivity.
  - apply (bool_decide_unpack _). vm_compute. exact I.
  - apply (bool_decide_unpack _). vm_compute. exact I.
  - reflexivity.
  - destruct (Hexample _ _ eq_refl eq_refl eq_refl eq_refl) as [Hrefuses Haccepts].
    eexists. split; [exact Hmodel|]. split.
    + by apply Hrefuses.
    + by apply (Haccepts _ "x").
Defined.

(** ** The sample deployment, seen from the node *)

Lemma sample_configured :
  configured Sample.vault Sample.nodeData VUndefined Sample.zone Sample.token.
Proof. exists VUndefined, (Some Sample.credentials). by repeat split. Defined.

Lemma sample_fetched_online :
  fetched Sample.url_ok Sample.online Sample.zone Sample.token
          (initialize Sample.online Sample.fresh).2.
Proof. exists Sample.fresh. by split. Defined.

Lemma sample_fetched_empty :
  fetched Sample.url_ok Sample.empty Sample.zone Sample.token
          (initialize Sample.empty Sample.fresh).2.
Proof. exists Sample.fresh. by split. Defined.

(** C2, as stated, fails for N = 0.  With valid credentials and a session
    that fetches the empty catalog, the discovery callback returns one
    option, not zero. *)
Lemma listMakeScenarios_count_counterexample :
  configured Sample.vault Sample.nodeData VUndefined Sample.zone Sample.token ∧
  fetched Sample.url_ok Sample.empty Sample.zone Sample.token
          (initialize Sample.empty Sample.fresh).2 ∧
  _rawTools (initialize Sample.empty Sample.fresh).2 = Some {| rawtools := [] |} ∧
  listMakeScenarios Sample.url_ok Sample.ordinal_compare Sample.vault
                    Sample.empty Sample.nodeData VUndefined
  = Ok [NO_SCENARIOS] ∧
  length [NO_SCENARIOS] ≠ length (rawtools {| rawtools := [] |}).
Proof.
  split; [exact sample_configured|]. split; [exact sample_fetched_empty|].
  repeat split; try reflexivity. discriminate.
Qed.

Lemma listMakeScenarios_sorted_catalog_witness :
  ∃ scenarios,
    listMakeScenarios Sample.url_ok Sample.ordinal_compare Sample.vault
                      Sample.online Sample.nodeData VUndefined
    = Ok scenarios ∧
    length scenarios = 2%nat ∧
    map opt_name scenarios = ["add_row"; "send_email"].
Proof.
  destruct (listMakeScenarios_sorted_catalog
              Sample.url_ok Sample.ordinal_compare Sample.vault
              Sample.online Sample.nodeData VUndefined Sample.zone Sample.token
              (initialize Sample.online Sample.fresh).2 Sample.catalog)
    as (scenarios & Hlist & Hlength & _).
  - exact ordinal_compare_total.
  - exact ordinal_compare_trans.
  - exact sample_configured.
  - exact sample_fetched_online.
  - reflexivity.
  - discriminate.
  - apply (bool_decide_unpack _). vm_compute. exact I.
  - exists scenarios. split; [exact Hlist|]. split; [exact Hlength|].
    assert (Ok scenarios
            = Ok (A:=list INodeOptionsValue)
                 [scenario_of_descriptor Sample.add_row;
                  scenario_of_descriptor Sample.send_email]) as [= ->].
    { rewrite <- Hlist. reflexivity. }
    reflexivity.
Defined.

Lemma listMakeScenarios_empty_catalog_witness :
  listMakeScenarios Sample.url_ok Sample.ordinal_compare Sample.vault
                    Sample.empty Sample.nodeData VUndefined
  = Ok [NO_SCENARIOS].
Proof.
  apply (listMakeScenarios_empty_catalog
           Sample.url_ok Sample.ordinal_compare Sample.vault
           Sample.empty Sample.nodeData VUndefined Sample.zone Sample.token
           (initialize Sample.empty Sample.fresh).2).
  - exact sample_configured.
  - exact sample_fetched_empty.
  - reflexivity.
Defined.

Lemma missing_credentials_witness :
  (∃ option,
     listMakeScenarios Sample.url_ok Sample.ordinal_compare Sample.vault
                       Sample.online Sample.nodeData_without_token VUndefined
     = Ok [option] ∧ opt_name option = "NO_CRED") ∧
  init Sample.url_ok Sample.vault Sample.online Sample.nodeData_without_token
       EmptyString VUndefined
  = Throw (ErrorObject "Make.com credentials are not configured for this node.").
Proof.
  apply (missing_credentials
           Sample.url_ok Sample.ordinal_compare Sample.vault
           Sample.online Sample.nodeData_without_token EmptyString VUndefined VUndefined
           (Some (<["makeZone" := Sample.zone]> ∅))).
  - reflexivity.
  - reflexivity.
  - right. reflexivity.
Defined.

Lemma init_returns_catalog_tools_witness :
  ∃ selected,
    init Sample.url_ok Sample.vault Sample.online Sample.nodeData EmptyString VUndefined
    = Ok selected ∧
    map name selected = ["add_row"] ∧
    (selected = [] ∨
     ∃ makeZone mcpToken rawTools c all,
       configured Sample.vault Sample.nodeData VUndefined makeZone mcpToken ∧
       on_tools_list (Sample.online (sse_url makeZone mcpToken)) = Ok rawTools ∧
       session c = Some (Sample.online (sse_url makeZone mcpToken)) ∧
       Forall2 (λ mcpTool tool, make_tool c mcpTool = Ok tool) (rawtools rawTools) all ∧
       Forall2 (λ mcpTool tool, name tool = mcp_name mcpTool) (rawtools rawTools) all ∧
       sublist selected all).
Proof.
  eexists. split; [reflexivity|]. split; [reflexivity|].
  eapply (init_returns_catalog_tools Sample.url_ok Sample.vault Sample.online
            Sample.nodeData EmptyString VUndefined).
  reflexivity.
Defined.

(** * Further properties of the toolkit *)

Lemma initialize_cached (net : Net) (this : SSEMCPToolkit) (rawTools : ListToolsResult) :
  _rawTools this = Some rawTools → initialize net this = (Ok (), this).
Proof. unfold initialize. by intros ->. Qed.

(** X1.  Once [initialize()] has succeeded, every further [initialize()]
    on the toolkit succeeds and leaves it as it is, whatever the server
    does by then: the catalog is fetched once. *)
Theorem initialize_only_once (net : Net) (this after : SSEMCPToolkit) :
  initialize net this = (Ok (), after) →
  ∀ net' : Net, initialize net' after = (Ok (), after).
Proof.
  intros Hinit net'.
  destruct (initialize_cases net this)
    as [(r & Hr & H)|[(_ & _ & H)|(tr & _ & _ & [(a & H & [r Hr])|(e & H)])]];
    rewrite H in Hinit; try discriminate Hinit; injection Hinit as <-;
    by eapply initialize_cached.
Qed.

Lemma initialize_only_once_witness :
  initialize Sample.offline (initialize Sample.online Sample.fresh).2
  = (Ok (), (initialize Sample.online Sample.fresh).2).
Proof.
  apply (initialize_only_once Sample.online Sample.fresh). reflexivity.
Defined.

Lemma mapM_Ok_intro {A B} (f : A → Result B) (l : list A) :
  Forall (λ x, ∃ y, f x = Ok y) l → ∃ ys, mapM f l = Ok ys.
Proof.
  induction 1 as [|x l [y Hy] _ [ys Hys]]; [by exists []|].
  exists (y :: ys). simpl. rewrite Hy. simpl. by rewrite Hys.
Qed.

Lemma plain_assoc (key : string) (fields : list (string * JsVal)) :
  plain (VObj fields) = true → plain (default VUndefined (assoc key fields)) = true.
Proof.
  simpl. induction fields as [|[k v] fields IH]; simpl; [done|].
  intros [Hv Hrest]%andb_true_iff.
  destruct (String.eqb k key); [done|]. by apply IH.
Qed.

Lemma plain_get (v : JsVal) (key : string) :
  plain v = true → truthy v = true → ∃ w, get v key = Ok w ∧ plain w = true.
Proof.
  destruct v; simpl; try done; eauto.
  intros H _. eexists. split; [done|]. by apply (plain_assoc key) in H.
Qed.

Lemma plain_opt_get (v : JsVal) (key : string) :
  plain v = true → ∃ w, opt_get v key = Ok w ∧ plain w = true.
Proof.
  destruct v; simpl; try done; eauto.
  intros H. eexists. split; [done|]. by apply (plain_assoc key) in H.
Qed.

Lemma plain_imap {A} (f : nat → A → string * JsVal) (l : list A) :
  (∀ i a, plain (f i a).2 = true) → Forall (λ entry, plain entry.2 = true) (imap f l).
Proof.
  revert f. induction l as [|a l IH]; intros f Hf; simpl; [constructor|].
  constructor; [apply Hf|]. apply IH. intros i b. apply Hf.
Qed.

Lemma plain_imap_items (f : nat → JsVal → string * JsVal) (items : list JsVal) :
  (∀ i item, (f i item).2 = item) → forallb plain items = true →
  Forall (λ entry, plain entry.2 = true) (imap f items).
Proof.
  revert f. induction items as [|item items IH]; intros f Hf H; simpl; [constructor|].
  simpl in H. apply andb_true_iff in H as [Hitem H].
  constructor; [by rewrite Hf|]. apply IH; [|done]. intros i b. apply Hf.
Qed.

Lemma plain_entries (v : JsVal) :
  plain v = true → truthy v = true →
  ∃ entries, Object_entries v = Ok entries ∧ Forall (λ entry, plain entry.2 = true) entries.
Proof.
  destruct v as [| |b|q|s|items|props| |]; simpl; try done; intros H _.
  - exists []. by split.
  - exists []. by split.
  - eexists. split; [done|]. by apply plain_imap.
  - eexists. split; [done|]. by apply plain_imap_items.
  - eexists. split; [done|].
    induction props as [|[k w] props IH]; [constructor|].
    simpl in H. apply andb_true_iff in H as [Hw H]. constructor; auto.
  - exists []. by split.
Qed.

(** On plain data no step of the conversion throws. *)
Lemma convert_property_plain (inputSchema : JsVal) (acc : list (string * ZodTypeAny))
    (key : string) (propSchema : JsVal) :
  plain inputSchema = true → truthy inputSchema = true → plain propSchema = true →
  ∃ acc', convert_property inputSchema acc (key, propSchema) = Ok acc'.
Proof.
  intros Hplain Htruthy Hprop. unfold convert_property.
  destruct (plain_opt_get propSchema "type" Hprop) as (type & -> & _).
  destruct (plain_get inputSchema "required" Hplain Htruthy) as (required & -> & Hreq).
  destruct (plain_opt_get propSchema "description" Hprop) as (description & Hdesc & _).
  assert (∃ isArray, Array_isArray required = Ok isArray) as [isArray HisArray].
  { destruct required; try done; by eexists. }
  cbn [mbind Result_bind]. rewrite HisArray. cbn [mbind Result_bind].
  rewrite Hdesc. cbn [mbind Result_bind].
  destruct (truthy description); by eexists.
Qed.

Lemma reduce_plain (inputSchema : JsVal) (entries : list (string * JsVal))
    (acc : list (string * ZodTypeAny)) :
  plain inputSchema = true → truthy inputSchema = true →
  Forall (λ entry, plain entry.2 = true) entries →
  ∃ shape, reduce (convert_property inputSchema) entries acc = Ok shape.
Proof.
  intros Hplain Htruthy Hentries. revert acc.
  induction Hentries as [|[key propSchema] entries Hprop _ IH]; intros acc;
    [by eexists|].
  cbn [reduce].
  destruct (convert_property_plain inputSchema acc key propSchema) as [acc' ->];
    [done..|].
  apply IH.
Qed.

Lemma createSchemaModel_of_plain (inputSchema : JsVal) :
  plain inputSchema = true →
  ∃ schema, createSchemaModel inputSchema = Ok schema ∧ unknownKeys schema = strip.
Proof.
  intros Hplain. unfold createSchemaModel, invalid_or_empty.
  destruct (truthy inputSchema) eqn:Htruthy; simpl; [|by eexists].
  destruct (String.eqb (typeof inputSchema) "object"); simpl; [|by eexists].
  destruct (plain_get inputSchema "type" Hplain Htruthy) as (type & -> & _). simpl.
  destruct (is_string type "object"); simpl; [|by eexists].
  destruct (plain_get inputSchema "properties" Hplain Htruthy)
    as (properties & Hprops & Hpp).
  rewrite Hprops. simpl.
  destruct (truthy properties) eqn:Htp; simpl; [|by eexists].
  unfold convert_properties. rewrite Hprops. simpl.
  destruct (plain_entries properties Hpp Htp) as (entries & -> & Hentries). simpl.
  destruct (reduce_plain inputSchema entries [] Hplain Htruthy Hentries) as [shape ->].
  simpl. by eexists.
Qed.



(** X3.  On a toolkit that has its transport and no cached catalog, when
    the server accepts the connection and lists plain tool descriptors,
    [initialize()] succeeds: the catalog is cached, there is one tool per
    descriptor, in order and under the descriptor's name, the toolkit
    keeps its transport, and [get_tools()] then returns the cached tools. *)
Theorem initialize_succeeds
    (net : Net) (this : SSEMCPToolkit) (tr : SSEClientTransport)
    (rawTools : ListToolsResult) :
  transport this = Some tr →
  _rawTools this = None →
  on_connect (net (transport_url tr)) = Ok () →
  on_tools_list (net (transport_url tr)) = Ok rawTools →
  Forall (λ mcpTool, plain (inputSchema mcpTool) = true) (rawtools rawTools) →
  ∃ after,
    initialize net this = (Ok (), after) ∧
    _rawTools after = Some rawTools ∧
    map name (tools after) = map mcp_name (rawtools rawTools) ∧
    transport after = Some tr ∧
    sseParams after = sseParams this ∧
    get_tools after = Ok (tools after).
Proof.
  intros Htr Hraw Hconnect Hlist Hplain.
  set (c := {| clientInfo_name := "flowise-sse-client";
               clientInfo_version := "1.0.0";
               session := Some (net (transport_url tr)) |}).
  destruct (mapM_Ok_intro (make_tool c) (rawtools rawTools)) as [ts Hts].
  { eapply Forall_impl; [exact Hplain|]. intros mcpTool Hp. unfold make_tool.
    destruct (createSchemaModel_of_plain _ Hp) as (schema & -> & _). by eexists. }
  eexists. unfold initialize. rewrite Hraw. cbn [transport]. rewrite Htr.
  unfold connect_and_list, connect. rewrite Hconnect. simpl.
  unfold request_tools_list. simpl. rewrite Hlist. simpl.
  unfold get_tools. simpl. fold c. rewrite Hts. simpl.
  split; [reflexivity|]. simpl.
  repeat split; try done.
  apply mapM_Ok_Forall2 in Hts. clear -Hts.
  induction Hts as [|mcpTool tool ? ? H _ IH]; simpl; [done|].
  apply scenario_of_make_tool in H as [-> _]. by rewrite IH.
Qed.

Lemma initialize_succeeds_witness :
  ∃ after,
    initialize Sample.online Sample.fresh = (Ok (), after) ∧
    map name (tools after) = ["send_email"; "add_row"] ∧
    get_tools after = Ok (tools after).
Proof.
  destruct (initialize_succeeds Sample.online Sample.fresh
              {| transport_url := sse_url Sample.zone Sample.token |} Sample.catalog)
    as (after & Hinit & _ & Hnames & _ & _ & Hget); try reflexivity.
  - repeat constructor.
  - exists after. by repeat split.
Defined.

(** X4.  On a toolkit that has its transport and no cached catalog, when
    the server refuses the connection, or accepts it and fails to list,
    [initialize()] throws an error that names the toolkit's URL and ends
    with the text of the cause, and leaves the cleared state. *)
Theorem initialize_failure_names_url
    (net : Net) (this : SSEMCPToolkit) (tr : SSEClientTransport) (cause : Thrown) :
  transport this = Some tr →
  _rawTools this = None →
  on_connect (net (transport_url tr)) = Throw cause
  ∨ (on_connect (net (transport_url tr)) = Ok () ∧
     on_tools_list (net (transport_url tr)) = Throw cause) →
  initialize net this
  = (Throw (ErrorObject ("Failed to connect or list tools from MCP server at "
                         +:+ url (sseParams this) +:+ ": " +:+ error_text cause)),
     cleared this).
Proof.
  intros Htr Hraw Hcause. unfold initialize. rewrite Hraw. cbn [transport].
  rewrite Htr. unfold connect_and_list, connect.
  destruct Hcause as [Hconnect|[Hconnect Hlist]]; rewrite Hconnect; simpl;
    [done|].
  unfold request_tools_list. simpl. by rewrite Hlist.
Qed.

Lemma initialize_failure_names_url_witness :
  (initialize Sample.muted Sample.fresh).1
  = Throw (ErrorObject
             "Failed to connect or list tools from MCP server at https://eu1.make.com/mcp/api/v1/u/4f1c2a9e/sse: Request timed out").
Proof.
  rewrite (initialize_failure_names_url Sample.muted Sample.fresh
             {| transport_url := sse_url Sample.zone Sample.token |}
             (ErrorObject "Request timed out")); try reflexivity.
  right. by split.
Defined.

Lemma or_else_not_empty (a b : string) : b ≠ EmptyString → or_else a b ≠ EmptyString.
Proof.
  intros Hb. unfold or_else.
  destruct (String.eqb_spec a EmptyString); done.
Qed.

(** X5.  The handler that [MCPToolSSE] gives to [tool(...)], the function
    that LangChain calls with the arguments once the tool's schema has
    accepted the input of an invocation, never throws and never returns
    the empty string, whatever the client, the name and the arguments.
    What it returns is, when the [tools/call] request succeeds, the [text]
    fields of the [text]-typed parts of the answer joined by newlines, or
    "[No text content returned]" when that string is empty; and when the
    request fails, "Error executing tool <name>: <message>". *)
Theorem tool_output_is_never_empty
    (c : Client) (name description : string) (argsSchema : ZodObject)
    (arguments : JsVal) :
  ∃ output,
    func (MCPToolSSE c name description argsSchema) arguments = Ok output ∧
    output ≠ EmptyString ∧
    match request_tools_call c name arguments with
    | Ok response =>
        let joined := String.concat newline (text_fields (content response)) in
        output = if decide (joined = EmptyString)
                 then "[No text content returned]" else joined
    | Throw error =>
        output = "Error executing tool " +:+ name +:+ ": " +:+ error_text error
    end.
Proof.
  simpl. unfold MCPToolSSE_func.
  destruct (request_tools_call c name arguments) as [response|error]; simpl.
  - eexists. split; [reflexivity|]. split; [by apply or_else_not_empty|].
    rewrite text_fields_filter. unfold or_else.
    destruct (String.eqb_spec (String.concat newline (text_fields (content response)))
                EmptyString); by case_decide.
  - eexists. split; [reflexivity|]. done.
Qed.

(** X6.  The handler of a tool of a toolkit that [initialize()] has set
    up, the function that LangChain calls with the arguments once the
    tool's schema has accepted the input of an invocation, sends one
    [tools/call] request to the server of the toolkit's URL: for the
    remote tool of the tool's own name, with the arguments it was handed,
    as they are.  It returns the text of that server's answer (or the
    placeholder), or the error text when the request fails. *)
Theorem tool_calls_remote_tool_of_its_name
    (net : Net) (this after : SSEMCPToolkit) (tr : SSEClientTransport)
    (tool : DynamicStructuredTool) (arguments : JsVal) :
  transport this = Some tr →
  _rawTools this = None →
  initialize net this = (Ok (), after) →
  tool ∈ tools after →
  func tool arguments
  = match on_tools_call (net (transport_url tr)) (name tool) arguments with
    | Ok response =>
        Ok (or_else (String.concat newline (text_fields (content response)))
                    "[No text content returned]")
    | Throw error =>
        Ok ("Error executing tool " +:+ name tool +:+ ": " +:+ error_text error)
    end.
Proof.
  intros Htr Hraw Hinit Hin.
  unfold initialize in Hinit. rewrite Hraw in Hinit. cbn [transport] in Hinit.
  rewrite Htr in Hinit.
  match type of Hinit with context [connect_and_list ?n ?t ?r] =>
    destruct (connect_and_list n t r) as [done_|error] eqn:Hrun end;
    [|discriminate].
  injection Hinit as ->.
  apply connect_and_list_Ok in Hrun as (rawTools & c & _ & _ & Hsess & Hts & _).
  apply mapM_Ok_Forall2 in Hts.
  apply list_elem_of_lookup in Hin as [i Hi].
  destruct (Forall2_lookup_r _ _ _ _ _ Hts Hi) as (mcpTool & _ & Hmake).
  apply make_tool_Ok in Hmake as (argsSchema & _ & ->).
  simpl. unfold MCPToolSSE_func, request_tools_call. rewrite Hsess.
  destruct (on_tools_call _ _ _) as [response|error]; simpl; [|done].
  by rewrite text_fields_filter.
Qed.

Lemma tool_calls_remote_tool_of_its_name_witness :
  ∃ tool,
    tools (initialize Sample.online Sample.fresh).2 !! 0%nat = Some tool ∧
    func tool (VObj [("a", VStr "x")]) = Ok ("queued" +:+ newline +:+ "id 17").
Proof.
  eexists. split; [reflexivity|].
  rewrite (tool_calls_remote_tool_of_its_name Sample.online Sample.fresh
             (initialize Sample.online Sample.fresh).2
             {| transport_url := sse_url Sample.zone Sample.token |});
    try reflexivity.
  apply list_elem_of_lookup. by exists 0%nat.
Defined.

(** X7.  Every tool that [get_tools()] builds carries a non-empty
    description: the remote description when there is a non-empty one,
    "Invoke <name> via MCP" otherwise.  So the option that discovery makes
    of the tool shows that description, never the name in its place. *)
Theorem tool_description_is_never_empty
    (this : SSEMCPToolkit) (ts : list DynamicStructuredTool) (tool : DynamicStructuredTool) :
  get_tools this = Ok ts →
  tool ∈ ts →
  description tool ≠ EmptyString ∧
  opt_description (scenario_of tool) = description tool ∧
  ∃ rawTools mcpTool,
    _rawTools this = Some rawTools ∧ mcpTool ∈ rawtools rawTools ∧
    name tool = mcp_name mcpTool ∧
    description tool
    = match mcp_description mcpTool with
      | Some remote =>
          if String.eqb remote EmptyString
          then "Invoke " +:+ mcp_name mcpTool +:+ " via MCP" else remote
      | None => "Invoke " +:+ mcp_name mcpTool +:+ " via MCP"
      end.
Proof.
  intros Hts Hin.
  apply get_tools_Ok in Hts as (rawTools & c & Hraw & _ & Hall).
  apply list_elem_of_lookup in Hin as [i Hi].
  destruct (Forall2_lookup_r _ _ _ _ _ Hall Hi) as (mcpTool & Hm & Hmake).
  apply make_tool_Ok in Hmake as (argsSchema & _ & ->). simpl.
  split; [by apply or_else_not_empty|]. split.
  - unfold scenario_of. simpl. by rewrite or_else_default.
  - exists rawTools, mcpTool. split; [done|].
    split; [apply list_elem_of_lookup; eauto|]. split; [done|].
    unfold or_else. by destruct (mcp_description mcpTool).
Qed.

Lemma tool_description_is_never_empty_witness :
  ∃ tool,
    tools (initialize Sample.online Sample.fresh).2 !! 1%nat = Some tool ∧
    description tool = "Invoke add_row via MCP".
Proof.
  eexists. split; [reflexivity|].
  destruct (tool_description_is_never_empty
              (initialize Sample.online Sample.fresh).2
              (tools (initialize Sample.online Sample.fresh).2)
              (MCPToolSSE
                 {| clientInfo_name := "flowise-sse-client";
                    clientInfo_version := "1.0.0";
                    session := Some Sample.answering |}
                 "add_row" "Invoke add_row via MCP"
                 (Zod.object [("cells", ZodAny)])))
    as (_ & _ & rawTools & mcpTool & _ & _ & _ & _).
  - reflexivity.
  - apply list_elem_of_lookup. by exists 1%nat.
  - reflexivity.
Defined.

(** * Further properties of the derived validators *)

(** The shape that a conversion without exception gives: one derived
    validator per property, under the property's key, in order. *)
Lemma converted_shape (inputSchema : JsVal) (properties : list (string * JsVal))
    (schema : ZodObject) :
  get inputSchema "properties" = Ok (VObj properties) →
  NoDup properties.*1 →
  convert_properties inputSchema = Ok schema →
  ∃ derived,
    schema = Zod.object derived ∧
    derived.*1 = properties.*1 ∧
    Forall2 (λ entry validator,
               validator.1 = entry.1 ∧
               ∃ type required description,
                 opt_get entry.2 "type" = Ok type ∧
                 get inputSchema "required" = Ok required ∧
                 opt_get entry.2 "description" = Ok description ∧
                 validator.2 = derived_validator type required description entry.1)
            properties derived.
Proof.
  intros Hprops Hnodup Hconv.
  unfold convert_properties in Hconv. rewrite Hprops in Hconv. simpl in Hconv.
  apply bind_Ok in Hconv as (shape & Hreduce & [= <-]).
  apply reduce_convert_property in Hreduce as (derived & -> & Hall); [|done].
  exists derived. split; [done|]. split; [|done].
  clear -Hall. induction Hall as [|? ? ? ? [Hkey _] _ IH]; csimpl; [done|].
  by rewrite Hkey, IH.
Qed.

Lemma listed_required_get (inputSchema required : JsVal) (key : string) :
  get inputSchema "required" = Ok required →
  listed_required inputSchema key
  = match required with VArr items => includes items key | _ => false end.
Proof. unfold listed_required. by intros ->. Qed.

(** A derived validator lets a value through exactly when the property
    admits it. *)
Lemma derived_validator_admits (type required description value : JsVal) (key : string) :
  value ≠ VRevoked →
  (∃ out, parse_value (derived_validator type required description key) value
          = Ok (Some out))
  ↔ admits type
      (match required with VArr items => includes items key | _ => false end)
      value = true.
Proof.
  intros Hvalue. unfold derived_validator, admits, conforms, primitive_type, zodType_of.
  generalize (match required with VArr items => includes items key | _ => false end).
  intros isRequired.
  destruct (truthy description), isRequired,
    (is_string type "string"), (is_string type "number"),
    (is_string type "boolean"), (is_string type "integer");
    destruct value as [| |b|q|s|items|props| |]; simpl;
    try destruct (Number_isInteger q); simpl;
    try (split; [intros [? [=]]|discriminate]);
    try (split; [done|eauto]); done.
Qed.

Lemma assoc_not_revoked (key : string) (props : list (string * JsVal)) :
  Forall (λ prop, prop.2 ≠ VRevoked) props →
  default VUndefined (assoc key props) ≠ VRevoked.
Proof.
  induction 1 as [|[k v] props Hv _ IH]; simpl; [done|].
  by destruct (String.eqb k key).
Qed.

Lemma member_not_revoked (key : string) (props : list (string * JsVal)) :
  Forall (λ prop, prop.2 ≠ VRevoked) props →
  default VUndefined (member props key) ≠ VRevoked.
Proof.
  intros Hprops. unfold member.
  destruct (assoc key props) as [value|] eqn:Hown.
  - pose proof (assoc_not_revoked key props Hprops) as H. by rewrite Hown in H.
  - by apply assoc_not_revoked; repeat constructor.
Qed.

(** X8.  The validator derived from a converted schema (properties of
    distinct keys, none of them [__proto__]) accepts an object (holding no
    revoked proxy as a value) exactly when every declared property admits
    the member the object has under its key, its own or else the one every
    object inherits (as for [toString]), [undefined] when there is none: a
    value of a 'string', 'number', 'boolean' or 'integer' property must be
    a string, a number, a boolean, an integral number, which no inherited
    member is; a value of a property of any other type can be anything;
    [undefined] is refused only for a property of one of the four types
    that [required] lists. *)
Theorem derived_validator_semantics
    (inputSchema : JsVal) (properties : list (string * JsVal)) (schema : ZodObject)
    (props : list (string * JsVal)) :
  get inputSchema "properties" = Ok (VObj properties) →
  NoDup properties.*1 →
  "__proto__" ∉ properties.*1 →
  convert_properties inputSchema = Ok schema →
  Forall (λ prop, prop.2 ≠ VRevoked) props →
  accepts schema (VObj props) = true
  ↔ ∀ key propSchema type,
      (key, propSchema) ∈ properties →
      opt_get propSchema "type" = Ok type →
      admits type (listed_required inputSchema key)
             (default VUndefined (member props key)) = true.
Proof.
  intros Hprops Hnodup _ Hconv Hplain.
  destruct (converted_shape _ _ _ Hprops Hnodup Hconv) as (derived & -> & _ & Hall).
  rewrite accepts_object, Forall_forall. split.
  - intros Hok key propSchema type Hin Htype.
    apply list_elem_of_lookup in Hin as [i Hi].
    destruct (Forall2_lookup_l _ _ _ _ _ Hall Hi)
      as ([key' validator] & Hi' & Hkey & type' & required & description
          & Htype' & Hreq & _ & Hvalidator).
    simpl in *. subst key' validator.
    assert (type' = type) as -> by congruence.
    rewrite (listed_required_get _ _ _ Hreq).
    apply (derived_validator_admits _ _ description);
      [by apply member_not_revoked|].
    apply (Hok (key, _)). apply list_elem_of_lookup. by exists i.
  - intros Hadmits [key validator] Hin.
    apply list_elem_of_lookup in Hin as [i Hi].
    destruct (Forall2_lookup_r _ _ _ _ _ Hall Hi)
      as ([key' propSchema] & Hi' & Hkey & type & required & description
          & Htype & Hreq & _ & Hvalidator).
    simpl in *. subst key' validator. unfold field_ok. simpl.
    apply derived_validator_admits; [by apply member_not_revoked|].
    rewrite <- (listed_required_get _ _ _ Hreq).
    apply (Hadmits key propSchema); [|done].
    apply list_elem_of_lookup. by exists i.
Qed.

Lemma derived_validator_semantics_witness :
  accepts (Zod.object [("a", ZodString); ("b", ZodOptional (ZodNumber false))])
          (VObj [("a", VStr "x"); ("b", VNum 1)]) = true.
Proof.
  apply (derived_validator_semantics
           (inputSchema Sample.send_email)
           [("a", VObj [("type", VStr "string")]);
            ("b", VObj [("type", VStr "number")])]).
  - reflexivity.
  - apply (bool_decide_unpack _). vm_compute. exact I.
  - apply (bool_decide_unpack _). vm_compute. exact I.
  - reflexivity.
  - by repeat constructor.
  - intros key propSchema type Hin Htype.
    apply elem_of_cons in Hin as [[= -> ->]|Hin];
      [|apply list_elem_of_singleton in Hin as [= -> ->]];
      injection Htype as <-; reflexivity.
Defined.

Lemma parse_value_same (t : ZodTypeAny) (data out : JsVal) :
  parse_value t data = Ok (Some out) → out = data.
Proof.
  revert data out. induction t as [|int| | |t IH|t IH d]; intros data out; simpl.
  - destruct data; simpl; intros H; try discriminate H; by injection H.
  - destruct data as [| | |q| | | | |]; simpl; intros H; try discriminate H.
    destruct (int && negb (Number_isInteger q)); try discriminate H; by injection H.
  - destruct data; simpl; intros H; try discriminate H; by injection H.
  - intros H. by injection H.
  - destruct data; simpl; try apply IH; intros H; try discriminate H; by injection H.
  - apply IH.
Qed.

(** What the merge keeps: the keys of the shape that the object has or
    inherits, each with the member the object has for it. *)
Lemma merge_pairs_keeps (props : list (string * JsVal)) (shape : list (string * ZodTypeAny))
    (pairs : list (string * option JsVal * bool)) (final : list (string * JsVal)) :
  "__proto__" ∉ shape.*1 →
  mapM (parse_key props) shape = Ok pairs →
  merge_pairs pairs = Some final →
  ∀ key value, (key, value) ∈ final ↔ key ∈ shape.*1 ∧ member props key = Some value.
Proof.
  revert pairs final.
  induction shape as [|[k validator] shape IH]; intros pairs final Hproto Hpairs Hfinal.
  - injection Hpairs as <-. injection Hfinal as <-. intros key value.
    split; [by intros ?%elem_of_nil|]. by intros [?%elem_of_nil _].
  - apply mapM_Ok_cons in Hpairs as (pair & pairs' & Hpair & Hpairs & ->).
    unfold parse_key in Hpair. apply bind_Ok in Hpair as (out & Hout & [= <-]).
    simpl in Hfinal. destruct out as [parsed|]; [|done]. simpl in Hfinal.
    destruct (merge_pairs pairs') as [final'|] eqn:Hfinal'; [|done].
    simpl in Hfinal. injection Hfinal as <-.
    apply parse_value_same in Hout. subst parsed.
    csimpl in Hproto. apply not_elem_of_cons in Hproto as [Hk' Hproto].
    specialize (IH _ _ Hproto Hpairs Hfinal').
    destruct (String.eqb_spec k "__proto__") as [->|_]; [done|].
    intros key value. csimpl. rewrite elem_of_cons.
    destruct (member props k) as [w|] eqn:Hk; simpl.
    + assert ((key, value) ∈ (k, w) :: final'
              ↔ (key = k ∨ key ∈ shape.*1) ∧ member props key = Some value) as H.
      { rewrite elem_of_cons, IH. split.
        - intros [[= -> ->]|[? ?]]; eauto.
        - intros [[->|?] ?]; [left; congruence|by right]. }
      by destruct w.
    + rewrite IH. split; [intros [? ?]; eauto|].
      intros [[->|?] ?]; [congruence|done].
Qed.

(** X9.  What the validator derived from a converted schema (properties of
    distinct keys, none of them [__proto__]) hands on, when it accepts an
    object, is the object restricted to the declared properties: the
    declared keys under which the object has a member, its own or else the
    one every object inherits (as for [toString]), each with that member,
    and no other key. *)
Theorem validated_arguments_are_the_declared_ones
    (inputSchema : JsVal) (properties : list (string * JsVal)) (schema : ZodObject)
    (props : list (string * JsVal)) (out : JsVal) :
  get inputSchema "properties" = Ok (VObj properties) →
  NoDup properties.*1 →
  "__proto__" ∉ properties.*1 →
  convert_properties inputSchema = Ok schema →
  safeParse schema (VObj props) = Ok (Some out) →
  ∃ fields,
    out = VObj fields ∧
    ∀ key value,
      (key, value) ∈ fields ↔ key ∈ properties.*1 ∧ member props key = Some value.
Proof.
  intros Hprops Hnodup Hproto Hconv Hparse.
  destruct (converted_shape _ _ _ Hprops Hnodup Hconv) as (derived & -> & Hkeys & _).
  rewrite <- Hkeys in Hproto.
  unfold safeParse in Hparse. simpl in Hparse.
  apply bind_Ok in Hparse as (pairs & Hpairs & Hparse).
  destruct (merge_pairs pairs) as [final|] eqn:Hfinal; [|done].
  simpl in Hparse. injection Hparse as <-. rewrite app_nil_r.
  exists final. split; [done|]. rewrite <- Hkeys.
  by apply (merge_pairs_keeps props derived pairs).
Qed.

Lemma validated_arguments_are_the_declared_ones_witness :
  ∃ fields,
    safeParse (Zod.object [("a", ZodString); ("b", ZodOptional (ZodNumber false))])
              (VObj [("note", VStr "n"); ("a", VStr "x")])
    = Ok (Some (VObj fields)) ∧
    ∀ key value,
      (key, value) ∈ fields
      ↔ key ∈ ["a"; "b"] ∧ member [("note", VStr "n"); ("a", VStr "x")] key = Some value.
Proof.
  destruct (validated_arguments_are_the_declared_ones
              (inputSchema Sample.send_email)
              [("a", VObj [("type", VStr "string")]);
               ("b", VObj [("type", VStr "number")])]
              (Zod.object [("a", ZodString); ("b", ZodOptional (ZodNumber false))])
              [("note", VStr "n"); ("a", VStr "x")]
              (VObj [("a", VStr "x")])
              eq_refl
              ltac:(apply (bool_decide_unpack _); vm_compute; exact I)
              ltac:(apply (bool_decide_unpack _); vm_compute; exact I)
              eq_refl eq_refl)
    as (fields & [= <-] & Hfields).
  exists [("a", VStr "x")]. split; [reflexivity|exact Hfields].
Defined.



(** * Further properties of the node *)

Lemma utf16_units_cases (byte : ascii) : utf16_units byte = 1 ∨ utf16_units byte = 2.
Proof. unfold utf16_units. destruct (_ <? _)%nat; auto. Qed.

(** A cut has as many code units as asked for, or all there are. *)
Lemma units_substring_from (pending end_ : nat) (s : string) :
  units_from pending (substring_from pending end_ s) = end_ `min` units_from pending s.
Proof.
  revert pending end_. induction s as [|byte rest IH]; intros pending end_; simpl.
  - lia.
  - destruct pending as [|pending]; [|apply IH].
    pose proof (utf16_units_cases byte) as Hunits.
    destruct (Nat.leb_spec (utf16_units byte) end_) as [Hle|Hgt].
    + simpl. rewrite IH. lia.
    + destruct (Nat.eqb_spec end_ 1) as [->|Hne].
      * assert (units_from 0 (halves byte rest).1 = 1) as ->; [|lia].
        unfold halves. by destruct rest as [|b2 [|b3 [|b4 rest]]].
      * simpl. lia.
Qed.

(** A string that is short enough is not cut. *)
Lemma substring_from_all (pending end_ : nat) (s : string) :
  units_from pending s ≤ end_ → substring_from pending end_ s = s.
Proof.
  revert pending end_. induction s as [|byte rest IH]; intros pending end_; simpl; [done|].
  destruct pending as [|pending]; intros Hle; [|by rewrite IH].
  destruct (Nat.leb_spec (utf16_units byte) end_) as [_|Hgt]; [|lia].
  rewrite IH; [done|lia].
Qed.

(** Where no pair can be split, a cut is a prefix. *)
Lemma substring_from_prefix (pending end_ : nat) (s : string) :
  no_pair s = true → String.prefix (substring_from pending end_ s) s = true.
Proof.
  unfold no_pair.
  revert pending end_. induction s as [|byte rest IH]; intros pending end_; simpl; [done|].
  intros [Hbyte Hrest]%andb_true_iff. apply Nat.ltb_lt in Hbyte.
  destruct pending as [|pending].
  - assert (utf16_units byte = 1) as ->.
    { unfold utf16_units. destruct (Nat.ltb_spec (nat_of_ascii byte) 240); [done|lia]. }
    destruct end_ as [|end_]; simpl; [done|].
    destruct (ascii_dec byte byte); [by apply IH|done].
  - simpl. destruct (ascii_dec byte byte); [by apply IH|done].
Qed.

(** On ASCII text a cut by code units is the cut by bytes. *)
Lemma substring_0_ascii (end_ : nat) (s : string) :
  is_ascii s = true → substring_0 end_ s = substring 0 end_ s.
Proof.
  unfold substring_0, is_ascii.
  revert end_. induction s as [|byte rest IH]; intros end_; simpl.
  - by destruct end_.
  - intros [Hbyte Hrest]%andb_true_iff. apply Nat.ltb_lt in Hbyte.
    assert (utf16_units byte = 1) as ->.
    { unfold utf16_units. destruct (Nat.ltb_spec (nat_of_ascii byte) 240); [done|lia]. }
    assert (utf8_width byte = 1) as ->.
    { unfold utf8_width. cbv zeta.
      destruct (Nat.ltb_spec (nat_of_ascii byte) 192); [done|lia]. }
    destruct end_ as [|end_]; simpl; [done|].
    rewrite Nat.sub_0_r. by rewrite IH.
Qed.

Lemma includes_strings (selection : list string) (key : string) :
  includes (map VStr selection) key = true ↔ key ∈ selection.
Proof.
  unfold includes. induction selection as [|s selection IH]; simpl.
  - split; [done|]. by intros ?%elem_of_nil.
  - rewrite orb_true_iff, IH, elem_of_cons.
    destruct (String.eqb_spec s key) as [->|Hne]; [tauto|].
    split; [intros [?|?]; [done|by right]|intros [?|?]; [congruence|by right]].
Qed.

Lemma includes_elem (items : list JsVal) (key : string) :
  includes items key = true ↔ VStr key ∈ items.
Proof.
  unfold includes. rewrite existsb_exists. split.
  - intros (item & Hin & Hitem). destruct item; try done.
    apply String.eqb_eq in Hitem as ->. by apply list_elem_of_In.
  - intros Hin. exists (VStr key). split; [by apply list_elem_of_In|].
    simpl. apply String.eqb_refl.
Qed.

(** [initialize] looks at the network at the URL of the transport only. *)
Lemma initialize_local (net1 net2 : Net) (this : SSEMCPToolkit) :
  (∀ tr, transport this = Some tr → net1 (transport_url tr) = net2 (transport_url tr)) →
  initialize net1 this = initialize net2 this.
Proof.
  intros Hsame. unfold initialize.
  destruct (_rawTools this); [done|]. cbn [transport].
  destruct (transport this) as [tr|]; [|done].
  unfold connect_and_list, connect. by rewrite (Hsame tr eq_refl).
Qed.

Section NodeFurther.
Variable valid_url : string → bool.
Variable localeCompare : string → string → Z.
Variable getCredentialData : string → JsVal → Result (option (gmap string string)).

(** [listMakeScenarios] once the credentials are there and the session
    cannot be set up. *)
Lemma listMakeScenarios_session_fails (net : Net) (nodeData : INodeData) (options : JsVal)
    (makeZone mcpToken : string) (error : Thrown) :
  configured getCredentialData nodeData options makeZone mcpToken →
  session_fails valid_url net makeZone mcpToken error →
  listMakeScenarios valid_url localeCompare getCredentialData net nodeData options
  = Ok [LOAD_ERROR (error_text error)].
Proof.
  intros (context & credentialData & Hctx & Hcred & Hzone & Hz & Htoken & Ht) Hfails.
  unfold listMakeScenarios. rewrite Hctx. simpl. rewrite Hcred. simpl.
  rewrite Hzone, Htoken, !missing_false by done. simpl.
  destruct Hfails as [Hnew|(built & left & Hnew & Hinit)]; rewrite Hnew; simpl;
    [done|]. by rewrite Hinit.
Qed.

(** X10.  When the host hands over the credential data, the discovery
    callback does not throw and returns at least one option; it throws
    only what reading [options.context] or the host's [getCredentialData]
    throws. *)
Theorem listMakeScenarios_never_throws_of_its_own
    (net : Net) (nodeData : INodeData) (options : JsVal) :
  (∀ context credentialData,
     opt_get options "context" = Ok context →
     getCredentialData (default EmptyString (credential nodeData)) context
       = Ok credentialData →
     ∃ scenarios,
       listMakeScenarios valid_url localeCompare getCredentialData net nodeData options
         = Ok scenarios ∧
       scenarios ≠ []) ∧
  (∀ error,
     listMakeScenarios valid_url localeCompare getCredentialData net nodeData options
       = Throw error →
     opt_get options "context" = Throw error
     ∨ ∃ context,
         opt_get options "context" = Ok context ∧
         getCredentialData (default EmptyString (credential nodeData)) context
           = Throw error).
Proof.
  assert (∀ context credentialData,
            opt_get options "context" = Ok context →
            getCredentialData (default EmptyString (credential nodeData)) context
              = Ok credentialData →
            ∃ scenarios,
              listMakeScenarios valid_url localeCompare getCredentialData
                                net nodeData options = Ok scenarios ∧
              scenarios ≠ []) as Hok.
  { intros context credentialData Hctx Hcred.
    unfold listMakeScenarios. rewrite Hctx. simpl. rewrite Hcred. simpl.
    destruct (missing _ || missing _); [by eexists|].
    destruct (new_SSEMCPToolkit _ _) as [built|error]; simpl; [|by eexists].
    destruct (initialize net built) as [[[]|error] toolkit]; simpl; [|by eexists].
    destruct (length (tools toolkit) =? 0)%nat eqn:Hlen; simpl; [by eexists|].
    eexists. split; [reflexivity|]. intros Hnil.
    apply (f_equal length) in Hnil. rewrite Array_sort_length, length_map in Hnil.
    simpl in Hnil. by rewrite Hnil in Hlen. }
  split; [exact Hok|]. intros error Hthrow.
  destruct (opt_get options "context") as [context|e] eqn:Hctx.
  - right. exists context. split; [done|].
    destruct (getCredentialData _ context) as [credentialData|e] eqn:Hcred.
    + destruct (Hok _ _ eq_refl Hcred) as (scenarios & H & _). congruence.
    + unfold listMakeScenarios in Hthrow. rewrite Hctx in Hthrow. simpl in Hthrow.
      rewrite Hcred in Hthrow. simpl in Hthrow. congruence.
  - left. unfold listMakeScenarios in Hthrow. rewrite Hctx in Hthrow.
    simpl in Hthrow. congruence.
Qed.

(** X11.  When the credentials are there and the session cannot be set
    up, the discovery callback returns exactly one option, named
    "LOAD_ERROR", whose description is the first 100 UTF-16 code units of
    the error text: it counts 100 code units, or as many as the error text
    when that is fewer, and then it is the error text itself.  It is a
    prefix of the error text when the text has no character outside the
    Basic Multilingual Plane (otherwise the cut can fall inside a pair of
    surrogates and leave half of it), and on ASCII text it is the first
    100 bytes. *)
Theorem listMakeScenarios_reports_load_error
    (net : Net) (nodeData : INodeData) (options : JsVal)
    (makeZone mcpToken : string) (error : Thrown) :
  configured getCredentialData nodeData options makeZone mcpToken →
  session_fails valid_url net makeZone mcpToken error →
  ∃ option,
    listMakeScenarios valid_url localeCompare getCredentialData net nodeData options
      = Ok [option] ∧
    opt_name option = "LOAD_ERROR" ∧
    opt_label option = "Error Loading Scenarios" ∧
    opt_description option = substring_0 100 (error_text error) ∧
    code_unit_length (opt_description option)
      = 100 `min` code_unit_length (error_text error) ∧
    (code_unit_length (error_text error) ≤ 100 →
     opt_description option = error_text error) ∧
    (no_pair (error_text error) = true →
     String.prefix (opt_description option) (error_text error) = true) ∧
    (is_ascii (error_text error) = true →
     opt_description option = substring 0 100 (error_text error)).
Proof.
  intros Hconf Hfails. exists (LOAD_ERROR (error_text error)).
  split; [by apply listMakeScenarios_session_fails with makeZone mcpToken|].
  do 3 (split; [reflexivity|]). simpl.
  split; [apply units_substring_from|].
  split; [apply substring_from_all|].
  split; [apply substring_from_prefix|apply substring_0_ascii].
Qed.

(** [init] up to its look at the selection, once the credentials are
    there. *)
Lemma init_configured (net : Net) (nodeData : INodeData) (unused : string)
    (options : JsVal) (makeZone mcpToken : string) :
  configured getCredentialData nodeData options makeZone mcpToken →
  init valid_url getCredentialData net nodeData unused options
  = (isArray ← Array_isArray (selected_actions nodeData);
     let items :=
       match selected_actions nodeData with VArr items => items | _ => [] end in
     if negb isArray || (length items =? 0)%nat then mret []
     else
       try_catch
         (toolkit ← new_SSEMCPToolkit valid_url
                      (Some {| url := sse_url makeZone mcpToken; headers := None |});
          let '(outcome, toolkit) := initialize net toolkit in
          _ ← outcome;
          mret (filter (λ tool, includes items (name tool) = true) (tools toolkit)))
         (λ error,
            Throw (ErrorObject ("Failed to initialize MakeTool: " +:+ error_text error)))).
Proof.
  intros (context & credentialData & Hctx & Hcred & Hzone & Hz & Htoken & Ht).
  unfold init. rewrite Hctx. simpl. rewrite Hcred. simpl.
  by rewrite Hzone, Htoken, !missing_false by done.
Qed.

(** X12.  With credentials in place, when the node data selects nothing
    ([mcpActions] absent, empty, or not an array, as a string is), the
    materializer returns the empty list and opens no session: the result
    is the same whatever the network. *)
Theorem init_without_selection
    (net : Net) (nodeData : INodeData) (unused : string) (options : JsVal)
    (makeZone mcpToken : string) :
  configured getCredentialData nodeData options makeZone mcpToken →
  nothing_selected nodeData →
  init valid_url getCredentialData net nodeData unused options = Ok [].
Proof.
  intros Hconf Hnothing. rewrite (init_configured _ _ _ _ _ _ Hconf).
  unfold nothing_selected in Hnothing. unfold selected_actions.
  destruct (inputs nodeData ≫= _) as [[| |b|q|s|[|first others]|props| |]|];
    simpl; try done.
  - by destruct b.
  - by destruct (Qeq_bool q 0).
  - by destruct (String.eqb s EmptyString).
Qed.

(** X13.  With credentials in place and a non-empty selection, when the
    session cannot be set up the materializer throws
    "Failed to initialize MakeTool: <text of the error>". *)
Theorem init_wraps_session_failure
    (net : Net) (nodeData : INodeData) (unused : string) (options : JsVal)
    (makeZone mcpToken : string) (first : JsVal) (others : list JsVal) (error : Thrown) :
  configured getCredentialData nodeData options makeZone mcpToken →
  selected_actions nodeData = VArr (first :: others) →
  session_fails valid_url net makeZone mcpToken error →
  init valid_url getCredentialData net nodeData unused options
  = Throw (ErrorObject ("Failed to initialize MakeTool: " +:+ error_text error)).
Proof.
  intros Hconf Hselected Hfails. rewrite (init_configured _ _ _ _ _ _ Hconf).
  rewrite Hselected. simpl.
  destruct Hfails as [Hnew|(built & left & Hnew & Hinit)]; rewrite Hnew; simpl;
    [done|]. by rewrite Hinit.
Qed.

(** X14.  Discovery and materialization compose.  With credentials in
    place, a session that fetches a non-empty catalog of tools with unique
    names, and a non-empty selection without repetition taken from the
    names of the options that discovery returns, the materializer returns
    tools whose names are exactly the selected names. *)
Theorem init_returns_the_selected_scenarios
    (net : Net) (nodeData : INodeData) (unused : string) (options : JsVal)
    (makeZone mcpToken : string) (toolkit : SSEMCPToolkit) (rawTools : ListToolsResult)
    (scenarios : list INodeOptionsValue) (selection : list string) :
  configured getCredentialData nodeData options makeZone mcpToken →
  fetched valid_url net makeZone mcpToken toolkit →
  _rawTools toolkit = Some rawTools →
  rawtools rawTools ≠ [] →
  NoDup (map mcp_name (rawtools rawTools)) →
  listMakeScenarios valid_url localeCompare getCredentialData net nodeData options
    = Ok scenarios →
  selection ≠ [] →
  NoDup selection →
  selection ⊆ map opt_name scenarios →
  inputs nodeData ≫= (λ inputs, inputs !! "mcpActions") = Some (VArr (map VStr selection)) →
  ∃ selected,
    init valid_url getCredentialData net nodeData unused options = Ok selected ∧
    map name selected ≡ₚ selection ∧
    selected ⊆ tools toolkit.
Proof.
  intros Hconf Hfetched Hraw Hnonempty Hnodup Hlist Hsel Hnodupsel Hsub Hinputs.
  pose proof Hfetched as (built & Hnew & Hinit).
  pose proof (fetched_session _ _ _ _ _ Hfetched)
    as (rawTools' & c & _ & _ & Hraw' & _ & Hall).
  assert (rawTools' = rawTools) as -> by congruence.
  assert (map name (tools toolkit) = map mcp_name (rawtools rawTools)) as Hnames.
  { clear -Hall. induction Hall as [|? ? ? ? H _ IH]; simpl; [done|].
    apply scenario_of_make_tool in H as [-> _]. by rewrite IH. }
  (* the options of discovery carry the names of the tools *)
  rewrite (listMakeScenarios_fetched _ _ _ _ _ _ _ _ _ Hconf Hfetched) in Hlist.
  assert ((length (tools toolkit) =? 0)%nat = false) as Hlen.
  { apply Nat.eqb_neq. intros Hzero. apply Hnonempty.
    apply (f_equal length) in Hnames. rewrite !length_map, Hzero in Hnames.
    by destruct (rawtools rawTools). }
  rewrite Hlen in Hlist. injection Hlist as <-.
  assert (map opt_name (Array_sort (by_label localeCompare)
                          (map scenario_of (tools toolkit)))
          ≡ₚ map name (tools toolkit)) as Hoptions.
  { rewrite Array_sort_Permutation. by rewrite map_map. }
  (* the materializer filters the tools by the selection *)
  rewrite (init_configured _ _ _ _ _ _ Hconf). unfold selected_actions.
  rewrite Hinputs. simpl.
  destruct selection as [|s selection]; [done|]. simpl.
  rewrite Hnew. simpl. rewrite Hinit. simpl.
  eexists. split; [reflexivity|]. split.
  - apply NoDup_Permutation; [|done|].
    + apply (sublist_NoDup _ (map name (tools toolkit)));
        [by rewrite Hnames|apply (fmap_sublist name), sublist_filter].
    + intros n. rewrite list_elem_of_fmap. split.
      * intros (tool & -> & [Hincl _]%list_elem_of_filter).
        by apply (includes_strings (s :: selection)).
      * intros Hn. pose proof (Hsub n Hn) as Hopt. rewrite Hoptions in Hopt.
        apply list_elem_of_fmap in Hopt as (tool & -> & Htool).
        exists tool. split; [done|]. apply list_elem_of_filter.
        split; [|done]. by apply (includes_strings (s :: selection)).
  - intros tool [_ ?]%list_elem_of_filter. done.
Qed.

(** X17.  With credentials in place, a session up and a non-empty
    selection array, the materializer returns exactly the tools of the
    session whose name is a string of the selection, in the order of the
    catalog; selected names that no tool bears are ignored. *)
Theorem init_filters_by_selection
    (net : Net) (nodeData : INodeData) (unused : string) (options : JsVal)
    (makeZone mcpToken : string) (toolkit : SSEMCPToolkit)
    (first : JsVal) (others : list JsVal) :
  configured getCredentialData nodeData options makeZone mcpToken →
  fetched valid_url net makeZone mcpToken toolkit →
  selected_actions nodeData = VArr (first :: others) →
  ∃ selected,
    init valid_url getCredentialData net nodeData unused options = Ok selected ∧
    sublist selected (tools toolkit) ∧
    ∀ tool, tool ∈ selected ↔ tool ∈ tools toolkit ∧ VStr (name tool) ∈ first :: others.
Proof.
  intros Hconf (built & Hnew & Hinit) Hselected.
  rewrite (init_configured _ _ _ _ _ _ Hconf), Hselected. cbn -[includes].
  rewrite Hnew. cbn -[includes]. rewrite Hinit. cbn -[includes].
  eexists. split; [reflexivity|]. split; [apply sublist_filter|].
  intros tool. rewrite list_elem_of_filter, includes_elem.
  split; intros [? ?]; by split.
Qed.

(** X15.  Both callbacks look at the network at one URL only, the one
    made of the zone and the token of the credential data: on two networks
    that answer alike at that URL they give the same result. *)
Theorem callbacks_contact_one_url
    (net1 net2 : Net) (nodeData : INodeData) (unused : string) (options context : JsVal)
    (credentialData : option (gmap string string)) :
  opt_get options "context" = Ok context →
  getCredentialData (default EmptyString (credential nodeData)) context
    = Ok credentialData →
  (let sseUrl :=
     sse_url (default EmptyString (credential_field credentialData "makeZone"))
             (default EmptyString (credential_field credentialData "mcpToken")) in
   net1 sseUrl = net2 sseUrl) →
  listMakeScenarios valid_url localeCompare getCredentialData net1 nodeData options
  = listMakeScenarios valid_url localeCompare getCredentialData net2 nodeData options
  ∧ init valid_url getCredentialData net1 nodeData unused options
    = init valid_url getCredentialData net2 nodeData unused options.
Proof.
  intros Hctx Hcred Hsame. simpl in Hsame.
  assert (∀ built,
            new_SSEMCPToolkit valid_url
              (Some {| url := sse_url
                          (default EmptyString (credential_field credentialData "makeZone"))
                          (default EmptyString (credential_field credentialData "mcpToken"));
                       headers := None |}) = Ok built →
            initialize net1 built = initialize net2 built) as Hinit.
  { intros built Hnew. apply initialize_local. intros tr Htr.
    apply new_SSEMCPToolkit_fresh in Hnew as (_ & _ & _ & p & [= <-] & _ & Htr').
    simpl in Htr'. rewrite Htr' in Htr. by injection Htr as <-. }
  split.
  - unfold listMakeScenarios. rewrite Hctx. simpl. rewrite Hcred. simpl.
    destruct (missing _ || missing _); [done|].
    destruct (new_SSEMCPToolkit _ _) as [built|error] eqn:Hnew; [|done].
    simpl. by rewrite (Hinit built eq_refl).
  - unfold init. rewrite Hctx. simpl. rewrite Hcred. simpl.
    destruct (missing _ || missing _); [done|].
    destruct (Array_isArray _) as [isArray|]; [|done]. simpl.
    destruct (negb isArray || _); [done|].
    destruct (new_SSEMCPToolkit _ _) as [built|error] eqn:Hnew; [|done].
    simpl. by rewrite (Hinit built eq_refl).
Qed.

End NodeFurther.

Lemma sample_session_fails_offline :
  session_fails Sample.url_ok Sample.offline Sample.zone Sample.token
    (ErrorObject
       "Failed to connect or list tools from MCP server at https://eu1.make.com/mcp/api/v1/u/4f1c2a9e/sse: SSE error: connect ECONNREFUSED").
Proof. right. exists Sample.fresh, (cleared Sample.fresh). by split. Defined.

Lemma sample_configured_stringified :
  configured Sample.vault Sample.nodeData_stringified VUndefined Sample.zone Sample.token.
Proof. exists VUndefined, (Some Sample.credentials). by repeat split. Defined.

Lemma listMakeScenarios_never_throws_of_its_own_witness :
  ∃ scenarios,
    listMakeScenarios Sample.url_ok Sample.ordinal_compare Sample.vault
                      Sample.offline Sample.nodeData VUndefined = Ok scenarios ∧
    scenarios ≠ [].
Proof.
  exact (proj1 (listMakeScenarios_never_throws_of_its_own
                  Sample.url_ok Sample.ordinal_compare Sample.vault
                  Sample.offline Sample.nodeData VUndefined)
               VUndefined (Some Sample.credentials) eq_refl eq_refl).
Defined.

Lemma listMakeScenarios_reports_load_error_witness :
  ∃ option,
    listMakeScenarios Sample.url_ok Sample.ordinal_compare Sample.vault
                      Sample.offline Sample.nodeData VUndefined = Ok [option] ∧
    opt_name option = "LOAD_ERROR" ∧
    code_unit_length (opt_description option) ≤ 100.
Proof.
  destruct (listMakeScenarios_reports_load_error
              Sample.url_ok Sample.ordinal_compare Sample.vault
              Sample.offline Sample.nodeData VUndefined Sample.zone Sample.token _
              sample_configured sample_session_fails_offline)
    as (option & Hlist & Hname & _ & _ & Hlength & _).
  exists option. split; [done|]. split; [done|]. rewrite Hlength. apply Nat.le_min_l.
Defined.

Lemma init_without_selection_witness :
  init Sample.url_ok Sample.vault Sample.online Sample.nodeData_stringified
       EmptyString VUndefined = Ok [].
Proof.
  apply (init_without_selection Sample.url_ok Sample.vault Sample.online
           Sample.nodeData_stringified EmptyString VUndefined Sample.zone Sample.token).
  - exact sample_configured_stringified.
  - exact I.
Defined.

Lemma init_wraps_session_failure_witness :
  init Sample.url_ok Sample.vault Sample.offline Sample.nodeData EmptyString VUndefined
  = Throw (ErrorObject
             "Failed to initialize MakeTool: Failed to connect or list tools from MCP server at https://eu1.make.com/mcp/api/v1/u/4f1c2a9e/sse: SSE error: connect ECONNREFUSED").
Proof.
  apply (init_wraps_session_failure Sample.url_ok Sample.vault Sample.offline
           Sample.nodeData EmptyString VUndefined Sample.zone Sample.token
           (VStr "add_row") [] _ sample_configured eq_refl sample_session_fails_offline).
Defined.

Lemma init_returns_the_selected_scenarios_witness :
  ∃ selected,
    init Sample.url_ok Sample.vault Sample.online Sample.nodeData EmptyString VUndefined
      = Ok selected ∧
    map name selected ≡ₚ ["add_row"].
Proof.
  destruct (init_returns_the_selected_scenarios
              Sample.url_ok Sample.ordinal_compare Sample.vault
              Sample.online Sample.nodeData EmptyString VUndefined
              Sample.zone Sample.token
              (initialize Sample.online Sample.fresh).2 Sample.catalog
              [scenario_of_descriptor Sample.add_row;
               scenario_of_descriptor Sample.send_email]
              ["add_row"])
    as (selected & Hinit & Hnames & _).
  - exact sample_configured.
  - exact sample_fetched_online.
  - reflexivity.
  - discriminate.
  - apply (bool_decide_unpack _). vm_compute. exact I.
  - reflexivity.
  - discriminate.
  - apply (bool_decide_unpack _). vm_compute. exact I.
  - intros n Hn. apply list_elem_of_singleton in Hn as ->. by left.
  - reflexivity.
  - by exists selected.
Defined.

Lemma callbacks_contact_one_url_witness :
  listMakeScenarios Sample.url_ok Sample.ordinal_compare Sample.vault
    (λ u, if String.eqb u (sse_url Sample.zone Sample.token)
          then Sample.answering else Sample.refusing)
    Sample.nodeData VUndefined
  = listMakeScenarios Sample.url_ok Sample.ordinal_compare Sample.vault
      Sample.online Sample.nodeData VUndefined.
Proof.
  apply (callbacks_contact_one_url Sample.url_ok Sample.ordinal_compare Sample.vault
           _ Sample.online Sample.nodeData EmptyString VUndefined VUndefined
           (Some Sample.credentials)); reflexivity.
Defined.

Lemma init_filters_by_selection_witness :
  ∃ selected,
    init Sample.url_ok Sample.vault Sample.online Sample.nodeData EmptyString VUndefined
      = Ok selected ∧
    sublist selected (tools (initialize Sample.online Sample.fresh).2).
Proof.
  destruct (init_filters_by_selection
              Sample.url_ok Sample.vault Sample.online Sample.nodeData
              EmptyString VUndefined Sample.zone Sample.token
              (initialize Sample.online Sample.fresh).2 (VStr "add_row") []
              sample_configured sample_fetched_online eq_refl)
    as (selected & Hinit & Hsub & _).
  by exists selected.
Defined.

(** * The descriptors and the callbacks *)

Section Wiring.
Variable valid_url : string → bool.
Variable localeCompare : string → string → Z.
Variable getCredentialData : string → JsVal → Result (option (gmap string string)).

(** X16.  The descriptors and the callbacks fit together.  The node asks
    for the credential that [MakeApi] declares; the load method that its
    input names is one of the node's [loadMethods]; credential data that
    stores, under the names of the two parameters of [MakeApi], one of the
    offered zones and a non-empty token passes the credential check of the
    callbacks, and the default zone is an offered one; a selection stored
    under the name of the node's input is the one the materializer reads. *)
Theorem descriptors_fit_the_callbacks :
  Descriptor.credentialNames (Descriptor.node_credential Descriptor.MakeTool)
    = [Descriptor.credential_name Descriptor.MakeApi] ∧
  (∀ param method,
     param ∈ Descriptor.node_inputs Descriptor.MakeTool →
     Descriptor.loadMethod param = Some method →
     is_Some (assoc method (loadMethods valid_url localeCompare getCredentialData))) ∧
  (∀ zoneParam tokenParam,
     Descriptor.credential_inputs Descriptor.MakeApi = [zoneParam; tokenParam] →
     (∀ zone, Descriptor.default zoneParam = Some zone →
              zone ∈ map Descriptor.option_name (Descriptor.options zoneParam)) ∧
     ∀ zone token,
       zone ∈ map Descriptor.option_name (Descriptor.options zoneParam) →
       token ≠ EmptyString →
       let credentialData : gmap string string :=
         <[Descriptor.name zoneParam := zone]>
           (<[Descriptor.name tokenParam := token]> ∅) in
       credential_field (Some credentialData) "makeZone" = Some zone ∧
       credential_field (Some credentialData) "mcpToken" = Some token ∧
       missing (Some zone) || missing (Some token) = false) ∧
  (∀ input,
     Descriptor.node_inputs Descriptor.MakeTool = [input] →
     ∀ (credential : option string) (selection : JsVal),
       selected_actions
         {| credential := credential;
            inputs := Some (<[Descriptor.name input := selection]> ∅) |}
       = if truthy selection then selection else VArr []).
Proof.
  split; [reflexivity|]. split; [|split].
  - intros param method Hin Hmethod.
    apply list_elem_of_singleton in Hin as ->. injection Hmethod as <-. by eexists.
  - intros zoneParam tokenParam [= <- <-]. split.
    + intros zone [= <-]. by left.
    + intros zone token Hzone Htoken.
      assert (missing (Some zone) = false) as Hz.
      { simpl in Hzone.
        repeat (apply elem_of_cons in Hzone as [->|Hzone]; [done|]).
        by apply elem_of_nil in Hzone. }
      rewrite Hz, (missing_false token Htoken). cbn [credential_field mbind option_bind].
      cbn [Descriptor.name].
      by rewrite lookup_insert_eq, lookup_insert_ne, lookup_insert_eq.
  - intros input [= <-] credential selection. unfold selected_actions. simpl.
    by rewrite lookup_insert_eq.
Qed.

End Wiring.

Lemma descriptors_fit_the_callbacks_witness :
  missing (Some "eu2") || missing (Some Sample.token) = false.
Proof.
  destruct (descriptors_fit_the_callbacks
              Sample.url_ok Sample.ordinal_compare Sample.vault)
    as (_ & _ & Hcredential & _).
  destruct (Hcredential _ _ eq_refl) as [_ Hcheck].
  apply (Hcheck "eu2" Sample.token); [|discriminate].
  simpl. do 2 right. by left.
Defined.
